(** * terraform-provider-garage: the Admin API client and the resource adapters

    A shallow embedding of [internal/client] (the REST client) and of
    [internal/provider] (the bucket, key and bucket-permission resources),
    followed by the properties of the specification that concern them.

    Modelling conventions.
    - A Go [string] is a sequence of bytes: Rocq's [string] (a list of
      [ascii]).  [len], slicing and [strings.TrimSuffix] are written out.
    - A Go pointer that is only tested against [nil] and dereferenced is an
      [option].  A returned pair of a pointer and an [error] is a
      [result (option T)] when the code can return [(nil, nil)], and a
      [result T] otherwise.
    - [int64] values are never computed with, only copied: they are [Z].
    - The network is explicit state: every client method is a function
      [Net -> _ * Net].  [Net] carries the state of the remote server and a
      ghost log of the requests handed to [doRequest], in order.
    - What [net/http] and [encoding/json] do is not part of the repository:
      the round trip, request construction and the three response decoders
      are the fields of the class [World].
    - The resource adapters start from the decoded plan and state models
      (after [req.Plan.Get] / [req.State.Get] returned without error) and
      end with the value handed to [resp.State]; [tflog] calls are dropped. *)

From Stdlib Require Import ZArith List Bool Lia.
From Stdlib Require Import Strings.String Strings.Ascii Numbers.DecimalString.
Import ListNotations.

Open Scope string_scope.
Open Scope bool_scope.

(* ------------------------------------------------------------------ *)
(** ** Go strings *)

Module strings.

(** [s[i:j]] for [i <= j <= len(s)]. *)
Definition slice (s : string) (i j : nat) : string := substring i (j - i) s.

(** [strings.HasSuffix(s, suffix)]:
    [len(s) >= len(suffix) && s[len(s)-len(suffix):] == suffix]. *)
Definition HasSuffix (s suffix : string) : bool :=
  (length suffix <=? length s)%nat
  && String.eqb (slice s (length s - length suffix) (length s)) suffix.

(** [strings.TrimSuffix(s, suffix)]:
    [if HasSuffix(s, suffix) { return s[:len(s)-len(suffix)] }; return s]. *)
Definition TrimSuffix (s suffix : string) : string :=
  if HasSuffix s suffix then slice s 0 (length s - length suffix) else s.

(** [strings.Contains(s, substr)], by trying every position. *)
Fixpoint Contains (s substr : string) : bool :=
  prefix substr s
  || match s with
     | EmptyString => false
     | String _ s' => Contains s' substr
     end.

End strings.

(** [fmt.Sprintf("%d", n)]. *)
Definition fmt_d (n : Z) : string := NilZero.string_of_int (Z.to_int n).

(* ------------------------------------------------------------------ *)
(** ** Go's [(value, error)] pairs *)

Inductive result (A : Type) : Type :=
| Ok (a : A)
| Err (msg : string).
Arguments Ok {A} a.
Arguments Err {A} msg.

Definition is_err {A} (r : result A) : bool :=
  match r with Ok _ => false | Err _ => true end.

(* ------------------------------------------------------------------ *)
(** ** package client: data *)

Module client.

(** [type Client struct]; [httpClient] is always [http.DefaultClient], whose
    behaviour is the [Do] of the class [World] below. *)
Record Client := mkClient {
  endpoint : string;
  token : string
}.

(** [func NewClient(endpoint, token string) *Client]. *)
Definition NewClient (endpoint token : string) : Client :=
  {| endpoint := strings.TrimSuffix endpoint "/";
     token := token |}.

Record Permissions := mkPermissions {
  Read : bool;
  Write : bool;
  Owner : bool
}.

Record BucketKeyInfo := mkBucketKeyInfo {
  bki_AccessKeyID : string;
  bki_Name : string;
  bki_Permissions : Permissions
}.

Record WebsiteConfig := mkWebsiteConfig {
  IndexDocument : string;
  ErrorDocument : string
}.

Record BucketQuotas := mkBucketQuotas {
  MaxSize : option Z;
  MaxObjects : option Z
}.

Record Bucket := mkBucket {
  ID : string;
  GlobalAliases : list string;
  WebsiteAccess : bool;
  WebsiteConfig_ : option WebsiteConfig;
  Keys : list BucketKeyInfo;
  Objects : Z;
  Bytes : Z;
  UnfinishedUploads : Z;
  Quotas : option BucketQuotas
}.

(** The anonymous struct of [CreateBucketRequest.LocalAlias]. *)
Record LocalAliasReq := mkLocalAliasReq {
  la_AccessKeyID : string;
  la_Alias : string
}.

Record CreateBucketRequest := mkCreateBucketRequest {
  cb_GlobalAlias : option string;
  cb_LocalAlias : option LocalAliasReq
}.

(** The anonymous struct of [UpdateBucketRequest.WebsiteAccess]. *)
Record WebsiteAccessReq := mkWebsiteAccessReq {
  wa_Enabled : bool;
  wa_IndexDocument : option string;
  wa_ErrorDocument : option string
}.

Record UpdateBucketRequest := mkUpdateBucketRequest {
  ub_WebsiteAccess : option WebsiteAccessReq;
  ub_Quotas : option BucketQuotas
}.

Record DeleteBucketRequest := mkDeleteBucketRequest { db_ID : string }.

Record GetBucketInfoRequest := mkGetBucketInfoRequest {
  gb_ID : option string;
  gb_GlobalAlias : option string
}.

Record BucketKeyPermRequest := mkBucketKeyPermRequest {
  BucketID : string;
  AccessKeyID : string;
  Permissions_ : Permissions
}.

Record KeyPermissions := mkKeyPermissions { CreateBucket_ : bool }.

Record KeyBucketInfo := mkKeyBucketInfo {
  kbi_ID : string;
  kbi_GlobalAliases : list string;
  kbi_LocalAliases : list string;
  kbi_Permissions : Permissions
}.

Record AccessKey := mkAccessKey {
  ak_AccessKeyID : string;
  ak_Name : string;
  ak_Expired : bool;
  ak_Created : option string;
  ak_Expiration : option string;
  ak_SecretAccessKey : option string;
  ak_Permissions : KeyPermissions;
  ak_Buckets : list KeyBucketInfo
}.

Record CreateKeyRequest := mkCreateKeyRequest {
  ck_Name : option string;
  ck_Expiration : option string
}.

Record DeleteKeyRequest := mkDeleteKeyRequest { dk_ID : string }.

Record GetKeyInfoRequest := mkGetKeyInfoRequest { gk_ID : string }.

(** The [body interface{}] argument of [doRequest]: [nil] or one of the
    request values the client methods pass. *)
Inductive ReqBody :=
| BodyCreateBucket (r : CreateBucketRequest)
| BodyUpdateBucket (r : UpdateBucketRequest)
| BodyAlias (id alias : string)
| BodyPerm (r : BucketKeyPermRequest)
| BodyCreateKey (r : CreateKeyRequest).

(** What [doRequest] hands to [net/http]. *)
Record HttpRequest := mkHttpRequest {
  Method : string;
  URL : string;
  Authorization : string;
  ContentType : string;
  Body : option ReqBody
}.

Record HttpResponse := mkHttpResponse {
  StatusCode : Z;
  RespBody : string
}.

Definition StatusOK : Z := 200.
Definition StatusCreated : Z := 201.
Definition StatusNoContent : Z := 204.
Definition StatusNotFound : Z := 404.
Definition MethodGet : string := "GET".
Definition MethodPost : string := "POST".

(** One entry of the ghost log: the arguments of a [doRequest] call. *)
Record Sent := mkSent {
  s_method : string;
  s_path : string;
  s_body : option ReqBody
}.

End client.

(* ------------------------------------------------------------------ *)
(** ** What lies outside the repository *)

(** The standard library calls the client makes and the server behind them.
    - [Srv]: the state of the remote Garage server (and of the network in
      front of it), opaque to the provider.
    - [NewRequest_error method url]: [http.NewRequestWithContext]; [Some e]
      when the request cannot be built (an URL that does not parse), with the
      error's text.
    - [Do req]: [c.httpClient.Do(req)], one round trip; [Err e] is a
      transport failure.
    - [decodeBuckets], [decodeBucket], [decodeKey]:
      [json.NewDecoder(resp.Body).Decode(&v)] at the three types decoded. *)
Class World := mkWorld {
  Srv : Type;
  NewRequest_error : string -> string -> option string;
  Do : client.HttpRequest -> Srv -> result client.HttpResponse * Srv;
  decodeBuckets : string -> result (list client.Bucket);
  decodeBucket : string -> result client.Bucket;
  decodeKey : string -> result client.AccessKey
}.

(* ------------------------------------------------------------------ *)
(** ** Computations that talk to the server *)

(** The server's state and the ghost log of the [doRequest] calls made so
    far, oldest first. *)
Record Net {W : World} := mkNet {
  server : Srv;
  log : list client.Sent
}.
Arguments mkNet {W} server log.

Definition M {W : World} (A : Type) : Type := Net -> A * Net.

Definition ret {W : World} {A} (a : A) : M A := fun n => (a, n).

Definition bind {W : World} {A B} (m : M A) (k : A -> M B) : M B :=
  fun n => let (a, n') := m n in k a n'.

Notation "x <- m ;; k" := (bind m (fun x => k))
  (at level 61, m at next level, right associativity).

(* ------------------------------------------------------------------ *)
(** ** package client: the methods *)

Section Methods.

Import client.

Context {W : World}.

(** [func (c *Client) doRequest(ctx, method, path string, body interface{})].
    [json.Marshal] cannot fail on the request structs (strings, booleans,
    [int64] and pointers to them), so its error branch is not reachable.
    The call is entered in the log before anything else happens. *)
Definition doRequest (c : Client) (method path : string)
    (body : option ReqBody) : M (result HttpResponse) :=
  fun n =>
    let lg := (log n ++ [mkSent method path body])%list in
    match NewRequest_error method (endpoint c ++ path) with
    | Some e => (Err ("failed to create request: " ++ e), mkNet (server n) lg)
    | None =>
        let req := {| Method := method;
                      URL := endpoint c ++ path;
                      Authorization := "Bearer " ++ token c;
                      ContentType := "application/json";
                      Body := body |} in
        let (r, srv') := Do req (server n) in
        match r with
        | Err e => (Err ("failed to execute request: " ++ e), mkNet srv' lg)
        | Ok resp => (Ok resp, mkNet srv' lg)
        end
    end.

(** [fmt.Errorf("API request failed with status %d: %s", resp.StatusCode,
    string(body))] where [body, _ := io.ReadAll(resp.Body)]. *)
Definition apiError (resp : HttpResponse) : string :=
  "API request failed with status " ++ fmt_d (StatusCode resp) ++ ": "
  ++ RespBody resp.

(** [fmt.Errorf("failed to decode response: %w", err)]. *)
Definition decodeError (e : string) : string :=
  "failed to decode response: " ++ e.

Definition ListBuckets (c : Client) : M (result (list Bucket)) :=
  r <- doRequest c MethodGet "/v2/ListBuckets" None ;;
  match r with
  | Err e => ret (Err e)
  | Ok resp =>
      if negb (StatusCode resp =? StatusOK)%Z then ret (Err (apiError resp))
      else match decodeBuckets (RespBody resp) with
           | Err e => ret (Err (decodeError e))
           | Ok bs => ret (Ok bs)
           end
  end.

Definition GetBucketInfo (c : Client) (req : GetBucketInfoRequest)
    : M (result (option Bucket)) :=
  let path :=
    "/v2/GetBucketInfo?"
    ++ match gb_ID req with
       | Some id => "id=" ++ id
       | None =>
           match gb_GlobalAlias req with
           | Some a => "globalAlias=" ++ a
           | None => ""
           end
       end in
  r <- doRequest c MethodGet path None ;;
  match r with
  | Err e => ret (Err e)
  | Ok resp =>
      if (StatusCode resp =? StatusNotFound)%Z then ret (Ok None)
      else if negb (StatusCode resp =? StatusOK)%Z
      then ret (Err (apiError resp))
      else match decodeBucket (RespBody resp) with
           | Err e => ret (Err (decodeError e))
           | Ok b => ret (Ok (Some b))
           end
  end.

Definition CreateBucket (c : Client) (req : CreateBucketRequest)
    : M (result Bucket) :=
  r <- doRequest c MethodPost "/v2/CreateBucket" (Some (BodyCreateBucket req)) ;;
  match r with
  | Err e => ret (Err e)
  | Ok resp =>
      if negb (StatusCode resp =? StatusOK)%Z
         && negb (StatusCode resp =? StatusCreated)%Z
      then ret (Err (apiError resp))
      else match decodeBucket (RespBody resp) with
           | Err e => ret (Err (decodeError e))
           | Ok b => ret (Ok b)
           end
  end.

Definition UpdateBucket (c : Client) (bucketID : string)
    (req : UpdateBucketRequest) : M (result Bucket) :=
  let path := "/v2/UpdateBucket?id=" ++ bucketID in
  r <- doRequest c MethodPost path (Some (BodyUpdateBucket req)) ;;
  match r with
  | Err e => ret (Err e)
  | Ok resp =>
      if negb (StatusCode resp =? StatusOK)%Z then ret (Err (apiError resp))
      else match decodeBucket (RespBody resp) with
           | Err e => ret (Err (decodeError e))
           | Ok b => ret (Ok b)
           end
  end.

Definition DeleteBucket (c : Client) (req : DeleteBucketRequest)
    : M (result unit) :=
  let path := "/v2/DeleteBucket?id=" ++ db_ID req in
  r <- doRequest c MethodPost path None ;;
  match r with
  | Err e => ret (Err e)
  | Ok resp =>
      if negb (StatusCode resp =? StatusOK)%Z
         && negb (StatusCode resp =? StatusNoContent)%Z
      then ret (Err (apiError resp))
      else ret (Ok tt)
  end.

Definition AddBucketAlias (c : Client) (bucketID alias : string)
    : M (result unit) :=
  r <- doRequest c MethodPost "/v2/AddBucketAlias"
         (Some (BodyAlias bucketID alias)) ;;
  match r with
  | Err e => ret (Err e)
  | Ok resp =>
      if negb (StatusCode resp =? StatusOK)%Z
         && negb (StatusCode resp =? StatusNoContent)%Z
      then ret (Err (apiError resp))
      else ret (Ok tt)
  end.

Definition RemoveBucketAlias (c : Client) (bucketID alias : string)
    : M (result unit) :=
  r <- doRequest c MethodPost "/v2/RemoveBucketAlias"
         (Some (BodyAlias bucketID alias)) ;;
  match r with
  | Err e => ret (Err e)
  | Ok resp =>
      if negb (StatusCode resp =? StatusOK)%Z
         && negb (StatusCode resp =? StatusNoContent)%Z
      then ret (Err (apiError resp))
      else ret (Ok tt)
  end.

Definition AllowBucketKey (c : Client) (req : BucketKeyPermRequest)
    : M (result Bucket) :=
  r <- doRequest c MethodPost "/v2/AllowBucketKey" (Some (BodyPerm req)) ;;
  match r with
  | Err e => ret (Err e)
  | Ok resp =>
      if negb (StatusCode resp =? StatusOK)%Z then ret (Err (apiError resp))
      else match decodeBucket (RespBody resp) with
           | Err e => ret (Err (decodeError e))
           | Ok b => ret (Ok b)
           end
  end.

Definition DenyBucketKey (c : Client) (req : BucketKeyPermRequest)
    : M (result Bucket) :=
  r <- doRequest c MethodPost "/v2/DenyBucketKey" (Some (BodyPerm req)) ;;
  match r with
  | Err e => ret (Err e)
  | Ok resp =>
      if negb (StatusCode resp =? StatusOK)%Z then ret (Err (apiError resp))
      else match decodeBucket (RespBody resp) with
           | Err e => ret (Err (decodeError e))
           | Ok b => ret (Ok b)
           end
  end.

Definition CreateKey (c : Client) (req : CreateKeyRequest)
    : M (result AccessKey) :=
  r <- doRequest c MethodPost "/v2/CreateKey" (Some (BodyCreateKey req)) ;;
  match r with
  | Err e => ret (Err e)
  | Ok resp =>
      if negb (StatusCode resp =? StatusOK)%Z
         && negb (StatusCode resp =? StatusCreated)%Z
      then ret (Err (apiError resp))
      else match decodeKey (RespBody resp) with
           | Err e => ret (Err (decodeError e))
           | Ok k => ret (Ok k)
           end
  end.

Definition GetKeyInfo (c : Client) (req : GetKeyInfoRequest)
    : M (result (option AccessKey)) :=
  let path := "/v2/GetKeyInfo?id=" ++ gk_ID req in
  r <- doRequest c MethodGet path None ;;
  match r with
  | Err e => ret (Err e)
  | Ok resp =>
      if (StatusCode resp =? StatusNotFound)%Z then ret (Ok None)
      else if negb (StatusCode resp =? StatusOK)%Z
      then ret (Err (apiError resp))
      else match decodeKey (RespBody resp) with
           | Err e => ret (Err (decodeError e))
           | Ok k => ret (Ok (Some k))
           end
  end.

Definition DeleteKey (c : Client) (req : DeleteKeyRequest) : M (result unit) :=
  let path := "/v2/DeleteKey?id=" ++ dk_ID req in
  r <- doRequest c MethodPost path None ;;
  match r with
  | Err e => ret (Err e)
  | Ok resp =>
      if negb (StatusCode resp =? StatusOK)%Z
         && negb (StatusCode resp =? StatusNoContent)%Z
      then ret (Err (apiError resp))
      else ret (Ok tt)
  end.

(** The client's methods as one type, to speak about "every client call". *)
Inductive Call :=
| ListBucketsC
| GetBucketInfoC (req : GetBucketInfoRequest)
| CreateBucketC (req : CreateBucketRequest)
| UpdateBucketC (bucketID : string) (req : UpdateBucketRequest)
| DeleteBucketC (req : DeleteBucketRequest)
| AddBucketAliasC (bucketID alias : string)
| RemoveBucketAliasC (bucketID alias : string)
| AllowBucketKeyC (req : BucketKeyPermRequest)
| DenyBucketKeyC (req : BucketKeyPermRequest)
| CreateKeyC (req : CreateKeyRequest)
| GetKeyInfoC (req : GetKeyInfoRequest)
| DeleteKeyC (req : DeleteKeyRequest).

(** The [error] a result carries: [None] is [nil]. *)
Definition error_of {A} (r : result A) : option string :=
  match r with Ok _ => None | Err e => Some e end.

(** Run a call and keep the [error] it returns. *)
Definition call_error (c : Client) (k : Call) : M (option string) :=
  match k with
  | ListBucketsC => r <- ListBuckets c ;; ret (error_of r)
  | GetBucketInfoC req => r <- GetBucketInfo c req ;; ret (error_of r)
  | CreateBucketC req => r <- CreateBucket c req ;; ret (error_of r)
  | UpdateBucketC id req => r <- UpdateBucket c id req ;; ret (error_of r)
  | DeleteBucketC req => r <- DeleteBucket c req ;; ret (error_of r)
  | AddBucketAliasC id a => r <- AddBucketAlias c id a ;; ret (error_of r)
  | RemoveBucketAliasC id a => r <- RemoveBucketAlias c id a ;; ret (error_of r)
  | AllowBucketKeyC req => r <- AllowBucketKey c req ;; ret (error_of r)
  | DenyBucketKeyC req => r <- DenyBucketKey c req ;; ret (error_of r)
  | CreateKeyC req => r <- CreateKey c req ;; ret (error_of r)
  | GetKeyInfoC req => r <- GetKeyInfo c req ;; ret (error_of r)
  | DeleteKeyC req => r <- DeleteKey c req ;; ret (error_of r)
  end.

(** The log entry a call leaves: the method, path and body it gives to
    [doRequest]. *)
Definition wire (k : Call) : Sent :=
  match k with
  | ListBucketsC => mkSent MethodGet "/v2/ListBuckets" None
  | GetBucketInfoC req =>
      mkSent MethodGet
        ("/v2/GetBucketInfo?"
         ++ match gb_ID req with
            | Some id => "id=" ++ id
            | None =>
                match gb_GlobalAlias req with
                | Some a => "globalAlias=" ++ a
                | None => ""
                end
            end)
        None
  | CreateBucketC req =>
      mkSent MethodPost "/v2/CreateBucket" (Some (BodyCreateBucket req))
  | UpdateBucketC id req =>
      mkSent MethodPost ("/v2/UpdateBucket?id=" ++ id)
        (Some (BodyUpdateBucket req))
  | DeleteBucketC req =>
      mkSent MethodPost ("/v2/DeleteBucket?id=" ++ db_ID req) None
  | AddBucketAliasC id a =>
      mkSent MethodPost "/v2/AddBucketAlias" (Some (BodyAlias id a))
  | RemoveBucketAliasC id a =>
      mkSent MethodPost "/v2/RemoveBucketAlias" (Some (BodyAlias id a))
  | AllowBucketKeyC req =>
      mkSent MethodPost "/v2/AllowBucketKey" (Some (BodyPerm req))
  | DenyBucketKeyC req =>
      mkSent MethodPost "/v2/DenyBucketKey" (Some (BodyPerm req))
  | CreateKeyC req =>
      mkSent MethodPost "/v2/CreateKey" (Some (BodyCreateKey req))
  | GetKeyInfoC req =>
      mkSent MethodGet ("/v2/GetKeyInfo?id=" ++ gk_ID req) None
  | DeleteKeyC req =>
      mkSent MethodPost ("/v2/DeleteKey?id=" ++ dk_ID req) None
  end.

(** The round trip of a call: [doRequest] at the call's own arguments. *)
Definition round_trip (c : Client) (k : Call) : M (result HttpResponse) :=
  doRequest c (s_method (wire k)) (s_path (wire k)) (s_body (wire k)).

End Methods.

(* ------------------------------------------------------------------ *)
(** ** terraform-plugin-framework: attribute values, diagnostics, state *)

Module types.

(** A framework value is null, unknown or known. *)
Inductive value (A : Type) : Type :=
| Null
| Unknown
| Value (a : A).
Arguments Null {A}.
Arguments Unknown {A}.
Arguments Value {A} a.

Definition IsNull {A} (v : value A) : bool :=
  match v with Null => true | _ => false end.

(** [ValueString], [ValueBool], [ValueInt64]: the known value, or the zero
    value of the type when null or unknown. *)
Definition ValueString (v : value string) : string :=
  match v with Value s => s | _ => "" end.

Definition ValueBool (v : value bool) : bool :=
  match v with Value b => b | _ => false end.

Definition ValueInt64 (v : value Z) : Z :=
  match v with Value z => z | _ => 0%Z end.

Definition StringValue (s : string) : value string := Value s.
Definition StringNull : value string := Null.
Definition BoolValue (b : bool) : value bool := Value b.
Definition Int64Value (z : Z) : value Z := Value z.
Definition Int64Null : value Z := Null.

Definition Bool : Type := value bool.
Definition Int64 : Type := value Z.
Definition String : Type := value string.

End types.

(** One error diagnostic: [resp.Diagnostics.AddError(summary, detail)]. *)
Record Diagnostic := mkDiagnostic {
  Summary : string;
  Detail : string
}.

(** What a resource method did to [resp.State]. *)
Inductive StateOp (A : Type) : Type :=
| Untouched
| StateSet (data : A)
| RemoveResource.
Arguments Untouched {A}.
Arguments StateSet {A} data.
Arguments RemoveResource {A}.

(** The response of a resource method.  Only errors are ever added, so
    [HasError] is non-emptiness. *)
Record Response (A : Type) : Type := mkResponse {
  Diagnostics : list Diagnostic;
  State : StateOp A
}.
Arguments mkResponse {A} Diagnostics State.
Arguments Diagnostics {A} r.
Arguments State {A} r.

Definition HasError {A} (r : Response A) : bool :=
  match Diagnostics r with [] => false | _ :: _ => true end.

(** A [schema.StringAttribute], as far as a configuration is concerned. *)
Module schema.



End schema.

(** What the framework does with a configuration before a resource method
    runs.  These two rules belong to terraform-plugin-framework, not to
    the repository. *)
Module fwserver.



End fwserver.

(* ------------------------------------------------------------------ *)
(** ** package provider: the resource adapters *)

Module provider.

Import client.

(** *** garage_bucket_permission *)

Record BucketPermissionResourceModel := mkBucketPermissionResourceModel {
  bp_ID : types.String;
  bp_BucketID : types.String;
  bp_AccessKeyID : types.String;
  bp_Read : types.Bool;
  bp_Write : types.Bool;
  bp_Owner : types.Bool
}.

(** The [for _, keyInfo := range bucket.Keys] loop of
    [updateStateFromBucket]: the permissions of the first row whose
    [AccessKeyID] is the one looked for ([break] at the first hit), [None]
    when the loop ends with [found == false]. *)
Fixpoint findKeyInfo (keys : list BucketKeyInfo) (accessKeyID : string)
    : option Permissions :=
  match keys with
  | [] => None
  | keyInfo :: rest =>
      if String.eqb (bki_AccessKeyID keyInfo) accessKeyID
      then Some (bki_Permissions keyInfo)
      else findKeyInfo rest accessKeyID
  end.

(** [func (r *BucketPermissionResource) updateStateFromBucket(ctx, data,
    bucket)]; the updated [*data] is the result. *)
Definition updateStateFromBucket (data : BucketPermissionResourceModel)
    (bucket : Bucket) : BucketPermissionResourceModel :=
  let accessKeyID := types.ValueString (bp_AccessKeyID data) in
  match findKeyInfo (Keys bucket) accessKeyID with
  | Some p =>
      {| bp_ID := bp_ID data;
         bp_BucketID := bp_BucketID data;
         bp_AccessKeyID := bp_AccessKeyID data;
         bp_Read := types.BoolValue (Read p);
         bp_Write := types.BoolValue (Write p);
         bp_Owner := types.BoolValue (Owner p) |}
  | None =>
      {| bp_ID := bp_ID data;
         bp_BucketID := bp_BucketID data;
         bp_AccessKeyID := bp_AccessKeyID data;
         bp_Read := types.BoolValue false;
         bp_Write := types.BoolValue false;
         bp_Owner := types.BoolValue false |}
  end.

(** The loop of [parseImportID], [for i := 0; i < len(id); i++], with
    [fuel = len(id) - i] iterations left. *)
Fixpoint parseImportID_loop (id : string) (i fuel : nat)
    : string * string * bool :=
  match fuel with
  | O => ("", "", false)
  | S fuel' =>
      match String.get i id with
      | Some ch =>
          if Ascii.eqb ch "/"%char
          then (strings.slice id 0 i, strings.slice id (i + 1) (length id), true)
          else parseImportID_loop id (S i) fuel'
      | None => ("", "", false)
      end
  end.

(** [func parseImportID(id string) (bucketID, accessKeyID string, ok bool)]. *)
Definition parseImportID (id : string) : string * string * bool :=
  parseImportID_loop id 0 (length id).

(** [BucketPermissionResource.ImportState]: no client call; the state starts
    empty and the three attributes are set one by one. *)
Definition BucketPermissionResource_ImportState (reqID : string)
    : Response BucketPermissionResourceModel :=
  match parseImportID reqID with
  | (bucketID, accessKeyID, found) =>
      if negb found
      then mkResponse
             [mkDiagnostic "Invalid Import ID"
                ("Expected import ID format: bucket_id/access_key_id, got: "
                 ++ reqID)]
             Untouched
      else mkResponse []
             (StateSet {| bp_ID := types.StringValue reqID;
                          bp_BucketID := types.StringValue bucketID;
                          bp_AccessKeyID := types.StringValue accessKeyID;
                          bp_Read := types.Null;
                          bp_Write := types.Null;
                          bp_Owner := types.Null |})
  end.

(** The request [Update] sends to [AllowBucketKey]: a flag is set when it
    changed and its planned value is true. *)
Definition Update_allowReq (data state : BucketPermissionResourceModel)
    : BucketKeyPermRequest :=
  let readChanged :=
    negb (Bool.eqb (types.ValueBool (bp_Read data)) (types.ValueBool (bp_Read state))) in
  let writeChanged :=
    negb (Bool.eqb (types.ValueBool (bp_Write data)) (types.ValueBool (bp_Write state))) in
  let ownerChanged :=
    negb (Bool.eqb (types.ValueBool (bp_Owner data)) (types.ValueBool (bp_Owner state))) in
  {| BucketID := types.ValueString (bp_BucketID data);
     AccessKeyID := types.ValueString (bp_AccessKeyID data);
     Permissions_ :=
       {| Read := readChanged && types.ValueBool (bp_Read data);
          Write := writeChanged && types.ValueBool (bp_Write data);
          Owner := ownerChanged && types.ValueBool (bp_Owner data) |} |}.

(** The request [Update] sends to [DenyBucketKey]: a flag is set when it
    changed and its planned value is false. *)
Definition Update_denyReq (data state : BucketPermissionResourceModel)
    : BucketKeyPermRequest :=
  let readChanged :=
    negb (Bool.eqb (types.ValueBool (bp_Read data)) (types.ValueBool (bp_Read state))) in
  let writeChanged :=
    negb (Bool.eqb (types.ValueBool (bp_Write data)) (types.ValueBool (bp_Write state))) in
  let ownerChanged :=
    negb (Bool.eqb (types.ValueBool (bp_Owner data)) (types.ValueBool (bp_Owner state))) in
  {| BucketID := types.ValueString (bp_BucketID data);
     AccessKeyID := types.ValueString (bp_AccessKeyID data);
     Permissions_ :=
       {| Read := readChanged && negb (types.ValueBool (bp_Read data));
          Write := writeChanged && negb (types.ValueBool (bp_Write data));
          Owner := ownerChanged && negb (types.ValueBool (bp_Owner data)) |} |}.

Section BucketPermission.

Context {W : World}.

(** [BucketPermissionResource.Create]. *)
Definition BucketPermissionResource_Create (c : Client)
    (data : BucketPermissionResourceModel)
    : M (Response BucketPermissionResourceModel) :=
  let allowReq :=
    {| BucketID := types.ValueString (bp_BucketID data);
       AccessKeyID := types.ValueString (bp_AccessKeyID data);
       Permissions_ :=
         {| Read := types.ValueBool (bp_Read data);
            Write := types.ValueBool (bp_Write data);
            Owner := types.ValueBool (bp_Owner data) |} |} in
  r <- AllowBucketKey c allowReq ;;
  match r with
  | Err err =>
      ret (mkResponse
             [mkDiagnostic "Client Error"
                ("Unable to create bucket permission, got error: " ++ err)]
             Untouched)
  | Ok bucket =>
      let data :=
        {| bp_ID :=
             types.StringValue
               (types.ValueString (bp_BucketID data) ++ "/"
                ++ types.ValueString (bp_AccessKeyID data));
           bp_BucketID := bp_BucketID data;
           bp_AccessKeyID := bp_AccessKeyID data;
           bp_Read := bp_Read data;
           bp_Write := bp_Write data;
           bp_Owner := bp_Owner data |} in
      let data := updateStateFromBucket data bucket in
      ret (mkResponse [] (StateSet data))
  end.

(** [BucketPermissionResource.Read]. *)
Definition BucketPermissionResource_Read (c : Client)
    (data : BucketPermissionResourceModel)
    : M (Response BucketPermissionResourceModel) :=
  let bucketID := types.ValueString (bp_BucketID data) in
  r <- GetBucketInfo c {| gb_ID := Some bucketID; gb_GlobalAlias := None |} ;;
  match r with
  | Err err =>
      ret (mkResponse
             [mkDiagnostic "Client Error"
                ("Unable to read bucket, got error: " ++ err)]
             Untouched)
  | Ok None => ret (mkResponse [] RemoveResource)
  | Ok (Some bucket) =>
      ret (mkResponse [] (StateSet (updateStateFromBucket data bucket)))
  end.

(** [BucketPermissionResource.Update]; [data] is the plan, [state] the prior
    state.  [bucket] is the local [var bucket *client.Bucket], [nil] at
    first and overwritten by each successful call. *)
Definition BucketPermissionResource_Update (c : Client)
    (data state : BucketPermissionResourceModel)
    : M (Response BucketPermissionResourceModel) :=
  let readChanged :=
    negb (Bool.eqb (types.ValueBool (bp_Read data)) (types.ValueBool (bp_Read state))) in
  let writeChanged :=
    negb (Bool.eqb (types.ValueBool (bp_Write data)) (types.ValueBool (bp_Write state))) in
  let ownerChanged :=
    negb (Bool.eqb (types.ValueBool (bp_Owner data)) (types.ValueBool (bp_Owner state))) in
  let bucket : option Bucket := None in
  granted <-
    (if (readChanged && types.ValueBool (bp_Read data))
        || (writeChanged && types.ValueBool (bp_Write data))
        || (ownerChanged && types.ValueBool (bp_Owner data))
     then
       r <- AllowBucketKey c (Update_allowReq data state) ;;
       match r with
       | Err err => ret (Err err)
       | Ok b => ret (Ok (Some b))
       end
     else ret (Ok bucket)) ;;
  match granted with
  | Err err =>
      ret (mkResponse
             [mkDiagnostic "Client Error"
                ("Unable to grant bucket permissions, got error: " ++ err)]
             Untouched)
  | Ok bucket =>
      revoked <-
        (if (readChanged && negb (types.ValueBool (bp_Read data)))
            || (writeChanged && negb (types.ValueBool (bp_Write data)))
            || (ownerChanged && negb (types.ValueBool (bp_Owner data)))
         then
           r <- DenyBucketKey c (Update_denyReq data state) ;;
           match r with
           | Err err => ret (Err err)
           | Ok b => ret (Ok (Some b))
           end
         else ret (Ok bucket)) ;;
      match revoked with
      | Err err =>
          ret (mkResponse
                 [mkDiagnostic "Client Error"
                    ("Unable to revoke bucket permissions, got error: " ++ err)]
                 Untouched)
      | Ok bucket =>
          let data :=
            match bucket with
            | Some b => updateStateFromBucket data b
            | None => data
            end in
          ret (mkResponse [] (StateSet data))
      end
  end.

(** [BucketPermissionResource.Delete]. *)
Definition BucketPermissionResource_Delete (c : Client)
    (data : BucketPermissionResourceModel)
    : M (Response BucketPermissionResourceModel) :=
  let denyReq :=
    {| BucketID := types.ValueString (bp_BucketID data);
       AccessKeyID := types.ValueString (bp_AccessKeyID data);
       Permissions_ :=
         {| Read := types.ValueBool (bp_Read data);
            Write := types.ValueBool (bp_Write data);
            Owner := types.ValueBool (bp_Owner data) |} |} in
  r <- DenyBucketKey c denyReq ;;
  match r with
  | Err err =>
      ret (mkResponse
             [mkDiagnostic "Client Error"
                ("Unable to delete bucket permission, got error: " ++ err)]
             Untouched)
  | Ok _ => ret (mkResponse [] Untouched)
  end.

End BucketPermission.

(** *** garage_key *)

Record KeyResourceModel := mkKeyResourceModel {
  k_ID : types.String;
  k_Name : types.String;
  k_SecretAccessKey : types.String
}.

(** The request [KeyResource.Create] sends: the name when it is not null. *)
Definition Create_createReq (data : KeyResourceModel) : CreateKeyRequest :=
  {| ck_Name :=
       if negb (types.IsNull (k_Name data))
       then Some (types.ValueString (k_Name data))
       else None;
     ck_Expiration := None |}.

Section Key.

Context {W : World}.

(** [KeyResource.Create]. *)
Definition KeyResource_Create (c : Client) (data : KeyResourceModel)
    : M (Response KeyResourceModel) :=
  let createReq := Create_createReq data in
  r <- CreateKey c createReq ;;
  match r with
  | Err err =>
      ret (mkResponse
             [mkDiagnostic "Client Error"
                ("Unable to create access key, got error: " ++ err)]
             Untouched)
  | Ok key =>
      let data :=
        {| k_ID := types.StringValue (ak_AccessKeyID key);
           k_Name := types.StringValue (ak_Name key);
           k_SecretAccessKey :=
             match ak_SecretAccessKey key with
             | Some secret => types.StringValue secret
             | None => k_SecretAccessKey data
             end |} in
      ret (mkResponse [] (StateSet data))
  end.

(** [KeyResource.Read]; [data] is the prior state. *)
Definition KeyResource_Read (c : Client) (data : KeyResourceModel)
    : M (Response KeyResourceModel) :=
  let keyID := types.ValueString (k_ID data) in
  r <- GetKeyInfo c {| gk_ID := keyID |} ;;
  match r with
  | Err err =>
      ret (mkResponse
             [mkDiagnostic "Client Error"
                ("Unable to read access key, got error: " ++ err)]
             Untouched)
  | Ok None => ret (mkResponse [] RemoveResource)
  | Ok (Some key) =>
      let data :=
        {| k_ID := types.StringValue (ak_AccessKeyID key);
           k_Name := types.StringValue (ak_Name key);
           k_SecretAccessKey := k_SecretAccessKey data |} in
      ret (mkResponse [] (StateSet data))
  end.

(** [KeyResource.Update]; [data] is the plan. *)
Definition KeyResource_Update (c : Client) (data : KeyResourceModel)
    : M (Response KeyResourceModel) :=
  ret (mkResponse [] (StateSet data)).

(** [KeyResource.Delete]. *)
Definition KeyResource_Delete (c : Client) (data : KeyResourceModel)
    : M (Response KeyResourceModel) :=
  r <- DeleteKey c {| dk_ID := types.ValueString (k_ID data) |} ;;
  match r with
  | Err err =>
      ret (mkResponse
             [mkDiagnostic "Client Error"
                ("Unable to delete access key, got error: " ++ err)]
             Untouched)
  | Ok _ => ret (mkResponse [] Untouched)
  end.

End Key.





(** *** garage_bucket *)

Record BucketResourceModel := mkBucketResourceModel {
  b_ID : types.String;
  b_GlobalAlias : types.String;
  b_WebsiteEnabled : types.Bool;
  b_WebsiteIndex : types.String;
  b_WebsiteError : types.String;
  b_MaxSize : types.Int64;
  b_MaxObjects : types.Int64
}.

(** The [updateReq] that [BucketResource.Create] builds after the bucket
    exists: a field is filled only if its attribute is not null. *)
Definition Create_updateReq (data : BucketResourceModel)
    : UpdateBucketRequest :=
  {| ub_WebsiteAccess :=
       if negb (types.IsNull (b_WebsiteEnabled data))
          || negb (types.IsNull (b_WebsiteIndex data))
          || negb (types.IsNull (b_WebsiteError data))
       then Some {| wa_Enabled := types.ValueBool (b_WebsiteEnabled data);
                    wa_IndexDocument :=
                      if negb (types.IsNull (b_WebsiteIndex data))
                      then Some (types.ValueString (b_WebsiteIndex data))
                      else None;
                    wa_ErrorDocument :=
                      if negb (types.IsNull (b_WebsiteError data))
                      then Some (types.ValueString (b_WebsiteError data))
                      else None |}
       else None;
     ub_Quotas :=
       if negb (types.IsNull (b_MaxSize data))
          || negb (types.IsNull (b_MaxObjects data))
       then Some {| MaxSize :=
                      if negb (types.IsNull (b_MaxSize data))
                      then Some (types.ValueInt64 (b_MaxSize data))
                      else None;
                    MaxObjects :=
                      if negb (types.IsNull (b_MaxObjects data))
                      then Some (types.ValueInt64 (b_MaxObjects data))
                      else None |}
       else None |}.

(** The flag [needsUpdate] of [BucketResource.Create]. *)
Definition Create_needsUpdate (data : BucketResourceModel) : bool :=
  (negb (types.IsNull (b_WebsiteEnabled data))
   || negb (types.IsNull (b_WebsiteIndex data))
   || negb (types.IsNull (b_WebsiteError data)))
  || (negb (types.IsNull (b_MaxSize data))
      || negb (types.IsNull (b_MaxObjects data))).

(** The state [BucketResource.Read] derives from the bucket it fetched. *)
Definition Read_state (data : BucketResourceModel) (bucket : Bucket)
    : BucketResourceModel :=
  {| b_ID := types.StringValue (ID bucket);
     b_GlobalAlias :=
       match GlobalAliases bucket with
       | alias :: _ => types.StringValue alias
       | [] => b_GlobalAlias data
       end;
     b_WebsiteEnabled := types.BoolValue (WebsiteAccess bucket);
     b_WebsiteIndex :=
       match WebsiteConfig_ bucket with
       | Some wc => types.StringValue (IndexDocument wc)
       | None => types.StringNull
       end;
     b_WebsiteError :=
       match WebsiteConfig_ bucket with
       | Some wc => types.StringValue (ErrorDocument wc)
       | None => types.StringNull
       end;
     b_MaxSize :=
       match Quotas bucket with
       | Some q =>
           match MaxSize q with
           | Some v => types.Int64Value v
           | None => types.Int64Null
           end
       | None => types.Int64Null
       end;
     b_MaxObjects :=
       match Quotas bucket with
       | Some q =>
           match MaxObjects q with
           | Some v => types.Int64Value v
           | None => types.Int64Null
           end
       | None => types.Int64Null
       end |}.

Section BucketRes.

Context {W : World}.

(** [BucketResource.Create]. *)
Definition BucketResource_Create (c : Client) (data : BucketResourceModel)
    : M (Response BucketResourceModel) :=
  let globalAlias := types.ValueString (b_GlobalAlias data) in
  let createReq :=
    {| cb_GlobalAlias := Some globalAlias; cb_LocalAlias := None |} in
  r <- CreateBucket c createReq ;;
  match r with
  | Err err =>
      ret (mkResponse
             [mkDiagnostic "Client Error"
                ("Unable to create bucket, got error: " ++ err)]
             Untouched)
  | Ok bucket =>
      let data' :=
        {| b_ID := types.StringValue (ID bucket);
           b_GlobalAlias := b_GlobalAlias data;
           b_WebsiteEnabled := b_WebsiteEnabled data;
           b_WebsiteIndex := b_WebsiteIndex data;
           b_WebsiteError := b_WebsiteError data;
           b_MaxSize := b_MaxSize data;
           b_MaxObjects := b_MaxObjects data |} in
      if Create_needsUpdate data
      then
        u <- UpdateBucket c (ID bucket) (Create_updateReq data) ;;
        match u with
        | Err err =>
            ret (mkResponse
                   [mkDiagnostic "Client Error"
                      ("Unable to update bucket, got error: " ++ err)]
                   Untouched)
        | Ok _ => ret (mkResponse [] (StateSet data'))
        end
      else ret (mkResponse [] (StateSet data'))
  end.

(** [BucketResource.Read]; [data] is the prior state. *)
Definition BucketResource_Read (c : Client) (data : BucketResourceModel)
    : M (Response BucketResourceModel) :=
  let bucketID := types.ValueString (b_ID data) in
  r <- GetBucketInfo c {| gb_ID := Some bucketID; gb_GlobalAlias := None |} ;;
  match r with
  | Err err =>
      ret (mkResponse
             [mkDiagnostic "Client Error"
                ("Unable to read bucket, got error: " ++ err)]
             Untouched)
  | Ok None => ret (mkResponse [] RemoveResource)
  | Ok (Some bucket) => ret (mkResponse [] (StateSet (Read_state data bucket)))
  end.

End BucketRes.

(** The [updateReq] that [BucketResource.Update] builds: the website block
    and the quotas block are always allocated, their optional fields are
    filled only if the attribute is not null. *)
Definition Update_updateReq (data : BucketResourceModel)
    : UpdateBucketRequest :=
  {| ub_WebsiteAccess :=
       Some {| wa_Enabled := types.ValueBool (b_WebsiteEnabled data);
               wa_IndexDocument :=
                 if negb (types.IsNull (b_WebsiteIndex data))
                 then Some (types.ValueString (b_WebsiteIndex data))
                 else None;
               wa_ErrorDocument :=
                 if negb (types.IsNull (b_WebsiteError data))
                 then Some (types.ValueString (b_WebsiteError data))
                 else None |};
     ub_Quotas :=
       Some {| MaxSize :=
                 if negb (types.IsNull (b_MaxSize data))
                 then Some (types.ValueInt64 (b_MaxSize data))
                 else None;
               MaxObjects :=
                 if negb (types.IsNull (b_MaxObjects data))
                 then Some (types.ValueInt64 (b_MaxObjects data))
                 else None |} |}.

Section BucketResWrites.

Context {W : World}.

(** [BucketResource.Update]; [data] is the plan. *)
Definition BucketResource_Update (c : Client) (data : BucketResourceModel)
    : M (Response BucketResourceModel) :=
  let bucketID := types.ValueString (b_ID data) in
  r <- UpdateBucket c bucketID (Update_updateReq data) ;;
  match r with
  | Err err =>
      ret (mkResponse
             [mkDiagnostic "Client Error"
                ("Unable to update bucket, got error: " ++ err)]
             Untouched)
  | Ok _ => ret (mkResponse [] (StateSet data))
  end.

(** [BucketResource.Delete]; [data] is the prior state. *)
Definition BucketResource_Delete (c : Client) (data : BucketResourceModel)
    : M (Response BucketResourceModel) :=
  let bucketID := types.ValueString (b_ID data) in
  r <- DeleteBucket c {| db_ID := bucketID |} ;;
  match r with
  | Err err =>
      ret (mkResponse
             [mkDiagnostic "Client Error"
                ("Unable to delete bucket, got error: " ++ err)]
             Untouched)
  | Ok _ => ret (mkResponse [] Untouched)
  end.

End BucketResWrites.

(** *** The provider *)

Record GarageProviderModel := mkGarageProviderModel {
  p_Endpoint : types.String;
  p_Token : types.String
}.

(** What [Configure] leaves in its response: the diagnostics and the two
    data fields, [nil] unless a client was built. *)
Record ConfigureResponse := mkConfigureResponse {
  cr_Diagnostics : list Diagnostic;
  DataSourceData : option Client;
  ResourceData : option Client
}.

(** [GarageProvider.Configure]; [Getenv] is [os.Getenv], which gives the
    empty string for a variable that is not set. *)
Definition GarageProvider_Configure (Getenv : string -> string)
    (data : GarageProviderModel) : ConfigureResponse :=
  let endpoint := types.ValueString (p_Endpoint data) in
  let endpoint :=
    if String.eqb endpoint EmptyString then Getenv "GARAGE_ENDPOINT"
    else endpoint in
  let token := types.ValueString (p_Token data) in
  let token :=
    if String.eqb token EmptyString then Getenv "GARAGE_TOKEN" else token in
  let diags :=
    ((if String.eqb endpoint EmptyString
      then [mkDiagnostic "Missing Garage Endpoint"
              ("The provider cannot create the Garage API client as there is a missing or empty value for the Garage endpoint. "
               ++ "Set the endpoint value in the configuration or use the GARAGE_ENDPOINT environment variable. "
               ++ "If either is already set, ensure the value is not empty.")]
      else [])
     ++ (if String.eqb token EmptyString
         then [mkDiagnostic "Missing Garage Token"
                 ("The provider cannot create the Garage API client as there is a missing or empty value for the Garage admin token. "
                  ++ "Set the token value in the configuration or use the GARAGE_TOKEN environment variable. "
                  ++ "If either is already set, ensure the value is not empty.")]
         else []))%list in
  match diags with
  | _ :: _ => mkConfigureResponse diags None None
  | [] =>
      let garageClient := NewClient endpoint token in
      mkConfigureResponse [] (Some garageClient) (Some garageClient)
  end.

End provider.

(* ------------------------------------------------------------------ *)
(** ** A scripted server, after the [httptest] servers of the client tests *)

Module httptest.

Import client.

(** Answers are served from a script, one per round trip; when the script is
    exhausted the connection is refused. *)
Definition scripted_Do (req : HttpRequest) (script : list (result HttpResponse))
    : result HttpResponse * list (result HttpResponse) :=
  match script with
  | [] => (Err "connection refused", [])
  | r :: rest => (r, rest)
  end.

Definition bucket_b1 : Bucket :=
  {| ID := "b1";
     GlobalAliases := ["my-bucket"];
     WebsiteAccess := false;
     WebsiteConfig_ := None;
     Keys := [ {| bki_AccessKeyID := "k0"; bki_Name := "other";
                  bki_Permissions := mkPermissions true true true |};
               {| bki_AccessKeyID := "k1"; bki_Name := "app";
                  bki_Permissions := mkPermissions true true false |} ];
     Objects := 42;
     Bytes := 1024;
     UnfinishedUploads := 0;
     Quotas := Some {| MaxSize := Some 1073741824%Z; MaxObjects := None |} |}.

Definition bucket_b2 : Bucket :=
  {| ID := "b2";
     GlobalAliases := ["plain-bucket"];
     WebsiteAccess := false;
     WebsiteConfig_ := None;
     Keys := [];
     Objects := 0;
     Bytes := 0;
     UnfinishedUploads := 0;
     Quotas := None |}.

Definition key_app : AccessKey :=
  {| ak_AccessKeyID := "GK0123456789abcdef01234567";
     ak_Name := "renamed-on-server";
     ak_Expired := false;
     ak_Created := None;
     ak_Expiration := None;
     ak_SecretAccessKey := None;
     ak_Permissions := mkKeyPermissions false;
     ak_Buckets := [] |}.

Definition key_new : AccessKey :=
  {| ak_AccessKeyID := "GKfedcba9876543210fedcba98";
     ak_Name := "";
     ak_Expired := false;
     ak_Created := None;
     ak_Expiration := None;
     ak_SecretAccessKey := Some "generated-secret";
     ak_Permissions := mkKeyPermissions false;
     ak_Buckets := [] |}.

(** The decoders know the bodies the scripts use, by name. *)
Definition decodeBucket_fixture (body : string) : result Bucket :=
  if String.eqb body "{bucket b1}" then Ok bucket_b1
  else if String.eqb body "{bucket b2}" then Ok bucket_b2
  else Err "invalid character".

Definition decodeBuckets_fixture (body : string) : result (list Bucket) :=
  if String.eqb body "[b1, b2]" then Ok [bucket_b1; bucket_b2]
  else Err "invalid character".

Definition decodeKey_fixture (body : string) : result AccessKey :=
  if String.eqb body "{key app}" then Ok key_app
  else if String.eqb body "{key new}" then Ok key_new
  else Err "invalid character".

Definition scripted : World :=
  {| Srv := list (result HttpResponse);
     NewRequest_error := fun _ _ => None;
     Do := scripted_Do;
     decodeBuckets := decodeBuckets_fixture;
     decodeBucket := decodeBucket_fixture;
     decodeKey := decodeKey_fixture |}.

(** A fresh network in front of a script. *)
Definition NewServer (script : list (result HttpResponse)) : @Net scripted :=
  @mkNet scripted script [].

Definition testClient : Client := NewClient "http://localhost:3903/" "test-token".

(** A bucket-permission model of key [k1] on bucket [b1]. *)
Definition permission (read write owner : bool)
    : provider.BucketPermissionResourceModel :=
  {| provider.bp_ID := types.Value "b1/k1";
     provider.bp_BucketID := types.Value "b1";
     provider.bp_AccessKeyID := types.Value "k1";
     provider.bp_Read := types.Value read;
     provider.bp_Write := types.Value write;
     provider.bp_Owner := types.Value owner |}.

(** The plan of a bucket with [max_size] set, as Terraform hands it to
    [Create]: [id] is not known yet, [website_enabled] has its default. *)
Definition bucket_plan (max_size : types.Int64)
    : provider.BucketResourceModel :=
  {| provider.b_ID := types.Unknown;
     provider.b_GlobalAlias := types.Value "my-bucket";
     provider.b_WebsiteEnabled := types.Value false;
     provider.b_WebsiteIndex := types.Null;
     provider.b_WebsiteError := types.Null;
     provider.b_MaxSize := max_size;
     provider.b_MaxObjects := types.Null |}.

(** The state [Create] stores for [bucket_plan] once the server has named
    the bucket [b1]. *)
Definition bucket_created : provider.BucketResourceModel :=
  {| provider.b_ID := types.Value "b1";
     provider.b_GlobalAlias := types.Value "my-bucket";
     provider.b_WebsiteEnabled := types.Value false;
     provider.b_WebsiteIndex := types.Null;
     provider.b_WebsiteError := types.Null;
     provider.b_MaxSize := types.Value 1073741824%Z;
     provider.b_MaxObjects := types.Null |}.




(** A key in state, with the secret it was created with. *)
Definition key_in_state : provider.KeyResourceModel :=
  {| provider.k_ID := types.Value "GK0123456789abcdef01234567";
     provider.k_Name := types.Value "app";
     provider.k_SecretAccessKey := types.Value "secret-from-creation" |}.

Definition ok_key_app : result HttpResponse := Ok (mkHttpResponse 200 "{key app}").
Definition ok_key_new : result HttpResponse := Ok (mkHttpResponse 200 "{key new}").

Definition ok_b1 : result HttpResponse := Ok (mkHttpResponse 200 "{bucket b1}").
Definition ok_b2 : result HttpResponse := Ok (mkHttpResponse 200 "{bucket b2}").
Definition internal_error : result HttpResponse :=
  Ok (mkHttpResponse 500 "Internal server error").

Definition gone : result HttpResponse := Ok (mkHttpResponse 404 "Not found").
Definition no_content : result HttpResponse :=
  Ok (mkHttpResponse 204 EmptyString).

(** The plan of a key with a name: [id] and the secret are not known yet. *)
Definition key_plan : provider.KeyResourceModel :=
  {| provider.k_ID := types.Unknown;
     provider.k_Name := types.Value "app";
     provider.k_SecretAccessKey := types.Unknown |}.

(** A scripted server behind a [net/http] that refuses to build a request
    for an URL with a space in it. *)
Definition strict : World :=
  {| Srv := list (result HttpResponse);
     NewRequest_error :=
       fun _ url =>
         if strings.Contains url " " then Some "invalid character in URL"
         else None;
     Do := scripted_Do;
     decodeBuckets := decodeBuckets_fixture;
     decodeBucket := decodeBucket_fixture;
     decodeKey := decodeKey_fixture |}.

End httptest.

(* ------------------------------------------------------------------ *)
(** ** Vocabulary of the specification *)

Module spec.

Import client provider.

(** The three flags of a bucket-permission model, as the code reads them
    ([ValueBool]). *)
Definition flags (m : BucketPermissionResourceModel) : Permissions :=
  {| Read := types.ValueBool (bp_Read m);
     Write := types.ValueBool (bp_Write m);
     Owner := types.ValueBool (bp_Owner m) |}.

(** A flag is turning on if it differs and the new value is true. *)
Definition turning_on (prev desired : bool) : bool :=
  negb (Bool.eqb prev desired) && desired.

(** A flag is turning off if it differs and the new value is false. *)
Definition turning_off (prev desired : bool) : bool :=
  negb (Bool.eqb prev desired) && negb desired.

Definition flags_turning_on (prev desired : Permissions) : Permissions :=
  {| Read := turning_on (Read prev) (Read desired);
     Write := turning_on (Write prev) (Write desired);
     Owner := turning_on (Owner prev) (Owner desired) |}.

Definition flags_turning_off (prev desired : Permissions) : Permissions :=
  {| Read := turning_off (Read prev) (Read desired);
     Write := turning_off (Write prev) (Write desired);
     Owner := turning_off (Owner prev) (Owner desired) |}.

(** At least one of the three flags is set. *)
Definition any (p : Permissions) : bool := Read p || Write p || Owner p.

Definition none_set : Permissions := mkPermissions false false false.

(** The entries of a log that went to the given path. *)
Definition calls_to (path : string) (l : list Sent) : list Sent :=
  filter (fun s => String.eqb (s_path s) path) l.

(** The grant and the revoke call of an [Update] from [state] to [data], as
    the specification describes them. *)
Definition grant_call (data state : BucketPermissionResourceModel) : Call :=
  AllowBucketKeyC
    {| BucketID := types.ValueString (bp_BucketID data);
       AccessKeyID := types.ValueString (bp_AccessKeyID data);
       Permissions_ := flags_turning_on (flags state) (flags data) |}.

Definition revoke_call (data state : BucketPermissionResourceModel) : Call :=
  DenyBucketKeyC
    {| BucketID := types.ValueString (bp_BucketID data);
       AccessKeyID := types.ValueString (bp_AccessKeyID data);
       Permissions_ := flags_turning_off (flags state) (flags data) |}.

(** The flags of [st] are those of the row of [bucket]'s key list for the
    access key of [st]: of the first such row, and all false when there is
    none. *)
Definition flags_from_key_list (bucket : Bucket)
    (st : BucketPermissionResourceModel) : Prop :=
  let key := types.ValueString (bp_AccessKeyID st) in
  (forall pre row post,
     Keys bucket = (pre ++ row :: post)%list ->
     bki_AccessKeyID row = key ->
     (forall r, In r pre -> bki_AccessKeyID r <> key) ->
     bp_Read st = types.Value (Read (bki_Permissions row))
     /\ bp_Write st = types.Value (Write (bki_Permissions row))
     /\ bp_Owner st = types.Value (Owner (bki_Permissions row)))
  /\ ((forall r, In r (Keys bucket) -> bki_AccessKeyID r <> key) ->
      bp_Read st = types.Value false
      /\ bp_Write st = types.Value false
      /\ bp_Owner st = types.Value false).

(** The two quota fields of a bucket or of an update request; absent quotas
    have both fields absent. *)
Definition quota_fields (q : option BucketQuotas) : option Z * option Z :=
  match q with
  | Some q => (MaxSize q, MaxObjects q)
  | None => (None, None)
  end.

(** A response either carries an error and leaves the state alone, or
    carries none and sets or removes the state. *)
Definition state_follows_diagnostics {A} (r : Response A) : Prop :=
  (HasError r = true -> State r = Untouched)
  /\ (HasError r = false -> State r <> Untouched).

(** How a provider setting is resolved: an explicit, non-empty setting is
    taken as it is; a null, unknown or empty one gives way to the
    environment variable. *)
Inductive resolved (env : string) : types.String -> string -> Prop :=
| resolved_explicit (s : string) :
    s <> EmptyString -> resolved env (types.Value s) s
| resolved_empty : resolved env (types.Value EmptyString) env
| resolved_null : resolved env types.Null env
| resolved_unknown : resolved env types.Unknown env.

(** The two calls that look something up. *)
Definition is_lookup (k : Call) : bool :=
  match k with
  | GetBucketInfoC _ | GetKeyInfoC _ => true
  | _ => false
  end.

(** The calls that return only an [error]. *)
Definition returns_nothing (k : Call) : bool :=
  match k with
  | DeleteBucketC _ | AddBucketAliasC _ _ | RemoveBucketAliasC _ _
  | DeleteKeyC _ => true
  | _ => false
  end.

(** The statuses after which a call goes on to its result: 200 everywhere,
    201 for the two creations, 204 for the calls that return nothing. *)
Definition accepted (k : Call) (status : Z) : bool :=
  match k with
  | CreateBucketC _ | CreateKeyC _ =>
      (status =? 200)%Z || (status =? 201)%Z
  | DeleteBucketC _ | AddBucketAliasC _ _ | RemoveBucketAliasC _ _
  | DeleteKeyC _ =>
      (status =? 200)%Z || (status =? 204)%Z
  | _ => (status =? 200)%Z
  end.

(** What the decoder of a call's result type says about a body: the error
    the call returns for it, [None] when it decodes or when nothing is
    decoded. *)
Definition decode_verdict {W : World} (k : Call) (body : string)
    : option string :=
  match k with
  | ListBucketsC =>
      match decodeBuckets body with
      | Ok _ => None
      | Err e => Some ("failed to decode response: " ++ e)
      end
  | GetBucketInfoC _ | CreateBucketC _ | UpdateBucketC _ _
  | AllowBucketKeyC _ | DenyBucketKeyC _ =>
      match decodeBucket body with
      | Ok _ => None
      | Err e => Some ("failed to decode response: " ++ e)
      end
  | CreateKeyC _ | GetKeyInfoC _ =>
      match decodeKey body with
      | Ok _ => None
      | Err e => Some ("failed to decode response: " ++ e)
      end
  | DeleteBucketC _ | AddBucketAliasC _ _ | RemoveBucketAliasC _ _
  | DeleteKeyC _ => None
  end.

(** Whether the grant call of an [Update] started in [n], if one is made,
    comes back without error. *)
Definition grant_passes {W : World} (c : Client)
    (data state : BucketPermissionResourceModel) (n : Net) : bool :=
  negb (any (flags_turning_on (flags state) (flags data))
        && is_err (fst (AllowBucketKey c (Update_allowReq data state) n))).

End spec.

(* ================================================================== *)
(** * Properties *)

(* ------------------------------------------------------------------ *)
(** ** The definitions on the inputs of the tests *)

Section Examples.

Import client provider.

(** [TestNewClient] and [TestNewClient_trailingSlash]. *)
Example NewClient_plain :
  NewClient "http://localhost:3903" "test-token"
  = mkClient "http://localhost:3903" "test-token".
Proof. reflexivity. Qed.

Example NewClient_trailingSlash :
  endpoint (NewClient "http://localhost:3903/" "token")
  = "http://localhost:3903".
Proof. reflexivity. Qed.

Example fmt_d_500 : fmt_d 500 = "500".
Proof. reflexivity. Qed.

Example apiError_500 :
  apiError (mkHttpResponse 500 "Internal server error")
  = "API request failed with status 500: Internal server error".
Proof. reflexivity. Qed.

Example parseImportID_b1_k1 : parseImportID "b1/k1" = ("b1", "k1", true).
Proof. reflexivity. Qed.

Example parseImportID_two_slashes :
  parseImportID "b1/k1/x" = ("b1", "k1/x", true).
Proof. reflexivity. Qed.

Example parseImportID_leading_slash :
  parseImportID "/k1" = (EmptyString, "k1", true).
Proof. reflexivity. Qed.

Example parseImportID_no_slash_at_all :
  parseImportID "b1k1" = (EmptyString, EmptyString, false).
Proof. reflexivity. Qed.

Example findKeyInfo_b1_k1 :
  findKeyInfo (Keys httptest.bucket_b1) "k1"
  = Some (mkPermissions true true false).
Proof. reflexivity. Qed.

(** [TestGetBucketInfo_byID], with the path the handler checks. *)
Example GetBucketInfo_byID :
  @GetBucketInfo httptest.scripted httptest.testClient
    {| gb_ID := Some "bucket-123"; gb_GlobalAlias := None |}
    (httptest.NewServer [httptest.ok_b1])
  = (Ok (Some httptest.bucket_b1),
     @mkNet httptest.scripted []
       [mkSent "GET" "/v2/GetBucketInfo?id=bucket-123" None]).
Proof. reflexivity. Qed.

(** A transport failure is wrapped and returned. *)
Example GetBucketInfo_refused :
  fst (@GetBucketInfo httptest.scripted httptest.testClient
         {| gb_ID := Some "bucket-123"; gb_GlobalAlias := None |}
         (httptest.NewServer []))
  = Err "failed to execute request: connection refused".
Proof. reflexivity. Qed.

End Examples.

(* ------------------------------------------------------------------ *)
(** ** Strings *)

Section StringFacts.

Lemma append_assoc (a b c : string) : (a ++ b) ++ c = a ++ (b ++ c).
Proof. induction a as [|ch a IH]; simpl; [reflexivity | now rewrite IH]. Qed.

Lemma append_nil_r (a : string) : a ++ EmptyString = a.
Proof. induction a as [|ch a IH]; simpl; [reflexivity | now rewrite IH]. Qed.

Lemma length_append (a b : string) :
  length (a ++ b) = (length a + length b)%nat.
Proof. induction a as [|ch a IH]; simpl; [reflexivity | now rewrite IH]. Qed.

Lemma prefix_append (x y : string) : prefix x (x ++ y) = true.
Proof.
  induction x as [|ch x IH]; simpl.
  - now destruct y.
  - destruct (ascii_dec ch ch) as [_ | ne]; [exact IH | now elim ne].
Qed.

Lemma substring_zero_length (s : string) (i : nat) :
  substring i 0 s = EmptyString.
Proof.
  revert i; induction s as [|ch s IH]; intros [|i]; simpl; auto.
Qed.

Lemma substring_head (x y : string) : substring 0 (length x) (x ++ y) = x.
Proof.
  induction x as [|ch x IH]; simpl.
  - apply substring_zero_length.
  - now rewrite IH.
Qed.

Lemma substring_whole (y : string) : substring 0 (length y) y = y.
Proof. induction y as [|ch y IH]; simpl; [reflexivity | now rewrite IH]. Qed.

Lemma substring_tail (x y : string) :
  substring (length x) (length y) (x ++ y) = y.
Proof.
  induction x as [|ch x IH]; simpl.
  - apply substring_whole.
  - exact IH.
Qed.

Lemma get_append (x : string) (ch : ascii) (y : string) :
  String.get (length x) (x ++ String ch y) = Some ch.
Proof. induction x as [|c x IH]; simpl; [reflexivity | exact IH]. Qed.

Lemma slice_head (x y : string) : strings.slice (x ++ y) 0 (length x) = x.
Proof.
  unfold strings.slice. rewrite Nat.sub_0_r. apply substring_head.
Qed.

Lemma slice_tail (x y : string) :
  strings.slice (x ++ y) (length x) (length (x ++ y)) = y.
Proof.
  unfold strings.slice. rewrite length_append.
  replace (length x + length y - length x)%nat with (length y) by lia.
  apply substring_tail.
Qed.

Lemma Contains_unfold (s x : string) :
  strings.Contains s x
  = prefix x s
    || match s with
       | EmptyString => false
       | String _ s' => strings.Contains s' x
       end.
Proof. destruct s; reflexivity. Qed.

Lemma Contains_append (pre x suf : string) :
  strings.Contains (pre ++ x ++ suf) x = true.
Proof.
  induction pre as [|ch pre IH].
  - rewrite Contains_unfold. simpl append. now rewrite prefix_append.
  - simpl. rewrite IH. apply orb_true_r.
Qed.

Lemma HasSuffix_append (x suf : string) :
  strings.HasSuffix (x ++ suf) suf = true.
Proof.
  unfold strings.HasSuffix. rewrite length_append.
  replace (length x + length suf - length suf)%nat with (length x) by lia.
  rewrite <- (length_append x suf), slice_tail, String.eqb_refl.
  rewrite andb_true_r. apply Nat.leb_le. rewrite length_append. lia.
Qed.

Lemma TrimSuffix_append (x suf : string) :
  strings.TrimSuffix (x ++ suf) suf = x.
Proof.
  unfold strings.TrimSuffix. rewrite HasSuffix_append, length_append.
  replace (length x + length suf - length suf)%nat with (length x) by lia.
  apply slice_head.
Qed.

Lemma HasSuffix_split (s suf : string) :
  strings.HasSuffix s suf = true -> exists x, s = x ++ suf.
Proof.
  unfold strings.HasSuffix. intros H.
  apply andb_true_iff in H as [Hlen Heq].
  apply Nat.leb_le in Hlen. apply String.eqb_eq in Heq.
  exists (substring 0 (length s - length suf) s).
  rewrite <- Heq at 2. unfold strings.slice.
  clear Heq. remember (length s - length suf)%nat as k eqn:Hk.
  assert (Hle : (k <= length s)%nat) by lia. clear Hk Hlen.
  revert k Hle. induction s as [|ch s IH]; intros k Hle; simpl in *.
  - destruct k; [reflexivity | lia].
  - destruct k as [|k]; simpl.
    + now rewrite substring_whole.
    + f_equal. apply IH. lia.
Qed.

End StringFacts.

(* ------------------------------------------------------------------ *)
(** ** Client construction *)

Section NewClientFacts.

Import client.

(** C8, as amended.  [NewClient] keeps the token unchanged and removes one
    trailing slash from the endpoint when there is one: an endpoint [h ++ "/"]
    is stored as [h], an endpoint that does not end in a slash is stored
    unchanged, and the stored endpoint ends in no slash unless the given one
    ended in two. *)
Theorem NewClient_trims_one_slash (ep tok : string) :
  token (NewClient ep tok) = tok
  /\ (forall h, ep = h ++ "/" -> endpoint (NewClient ep tok) = h)
  /\ (strings.HasSuffix ep "/" = false -> endpoint (NewClient ep tok) = ep)
  /\ (strings.HasSuffix ep "//" = false ->
      strings.HasSuffix (endpoint (NewClient ep tok)) "/" = false).
Proof.
  split; [reflexivity|]. split; [|split].
  - intros h ->. cbn [NewClient endpoint]. apply TrimSuffix_append.
  - intros H. cbn [NewClient endpoint]. unfold strings.TrimSuffix. now rewrite H.
  - intros H2. cbn [NewClient endpoint].
    destruct (strings.HasSuffix ep "/") eqn:H1.
    + destruct (HasSuffix_split _ _ H1) as [h ->].
      rewrite TrimSuffix_append.
      destruct (strings.HasSuffix h "/") eqn:Hh; [|reflexivity].
      destruct (HasSuffix_split _ _ Hh) as [h' ->].
      rewrite append_assoc in H2. simpl in H2.
      change (String "/" (String "/" "")) with "//" in H2.
      now rewrite HasSuffix_append in H2.
    + unfold strings.TrimSuffix. now rewrite H1.
Qed.

(** The endpoint of the specification's example, and the token. *)
Lemma NewClient_trims_one_slash_witness :
  endpoint (NewClient "http://h/" "tok") = "http://h"
  /\ token (NewClient "http://h/" "tok") = "tok".
Proof.
  destruct (NewClient_trims_one_slash "http://h/" "tok") as [Ht [Hs _]].
  split; [apply (Hs "http://h"); reflexivity | exact Ht].
Defined.

(** C8 as stated fails: an endpoint that ends in two slashes is stored with
    one of them left. *)
Lemma NewClient_leaves_second_slash :
  endpoint (NewClient "http://h//" "tok") = "http://h/"
  /\ strings.HasSuffix (endpoint (NewClient "http://h//" "tok")) "/" = true.
Proof. split; reflexivity. Qed.

End NewClientFacts.

(* ------------------------------------------------------------------ *)
(** ** Import of a bucket permission *)

Section ImportFacts.

Import provider.

Lemma prefix_nil (s : string) : prefix EmptyString s = true.
Proof. now destruct s. Qed.

Lemma Contains_slash_cons (ch : ascii) (s : string) :
  strings.Contains (String ch s) "/"
  = Ascii.eqb ch "/"%char || strings.Contains s "/".
Proof.
  rewrite Contains_unfold. cbn [prefix].
  destruct (ascii_dec "/" ch) as [<- | ne].
  - now rewrite prefix_nil.
  - destruct (Ascii.eqb_spec ch "/"%char) as [-> | _]; [now elim ne | reflexivity].
Qed.

(** The loop, started at the end of [pre], stops at the first slash. *)
Lemma parseImportID_loop_found (a pre suf : string) :
  strings.Contains a "/" = false ->
  parseImportID_loop (pre ++ a ++ "/" ++ suf) (length pre)
    (length (a ++ "/" ++ suf))
  = (pre ++ a, suf, true).
Proof.
  revert pre. induction a as [|ch a IH]; intros pre Hno.
  - simpl append. simpl length. cbn [parseImportID_loop].
    rewrite get_append. cbn [Ascii.eqb Bool.eqb]. cbn iota.
    rewrite slice_head, append_nil_r.
    replace (pre ++ String "/" suf) with ((pre ++ "/") ++ suf)
      by (now rewrite append_assoc).
    replace (length pre + 1)%nat with (length (pre ++ "/"))
      by (rewrite length_append; reflexivity).
    now rewrite slice_tail.
  - rewrite Contains_slash_cons in Hno.
    apply orb_false_iff in Hno as [Hch Ha].
    simpl append. simpl length. cbn [parseImportID_loop].
    rewrite get_append, Hch.
    specialize (IH (pre ++ String ch "") Ha).
    rewrite length_append in IH. simpl length in IH.
    replace (length pre + 1)%nat with (S (length pre)) in IH by lia.
    rewrite !append_assoc in IH. simpl append in IH. exact IH.
Qed.

(** Without a slash the loop runs to the end. *)
Lemma parseImportID_loop_not_found (a pre : string) :
  strings.Contains a "/" = false ->
  parseImportID_loop (pre ++ a) (length pre) (length a)
  = (EmptyString, EmptyString, false).
Proof.
  revert pre. induction a as [|ch a IH]; intros pre Hno.
  - reflexivity.
  - rewrite Contains_slash_cons in Hno.
    apply orb_false_iff in Hno as [Hch Ha].
    simpl length. cbn [parseImportID_loop].
    rewrite get_append, Hch.
    specialize (IH (pre ++ String ch "") Ha).
    rewrite length_append in IH. simpl length in IH.
    replace (length pre + 1)%nat with (S (length pre)) in IH by lia.
    rewrite append_assoc in IH. simpl append in IH. exact IH.
Qed.

Lemma Contains_slash_split (id : string) :
  strings.Contains id "/" = true ->
  exists a suf, id = a ++ "/" ++ suf /\ strings.Contains a "/" = false.
Proof.
  induction id as [|ch id IH]; intros H.
  - discriminate.
  - rewrite Contains_slash_cons in H.
    destruct (Ascii.eqb_spec ch "/"%char) as [-> | ne].
    + exists EmptyString, id. split; reflexivity.
    + simpl in H. destruct (IH H) as (a & suf & -> & Ha).
      exists (String ch a), suf. split; [reflexivity|].
      rewrite Contains_slash_cons, Ha.
      now destruct (Ascii.eqb_spec ch "/"%char).
Qed.

Lemma parseImportID_split (a suf : string) :
  strings.Contains a "/" = false ->
  parseImportID (a ++ "/" ++ suf) = (a, suf, true).
Proof.
  intros H. unfold parseImportID.
  exact (parseImportID_loop_found a EmptyString suf H).
Qed.

Lemma parseImportID_no_slash (id : string) :
  strings.Contains id "/" = false ->
  parseImportID id = (EmptyString, EmptyString, false).
Proof.
  intros H. unfold parseImportID.
  exact (parseImportID_loop_not_found id EmptyString H).
Qed.

(** C6.  An import identifier that contains a slash is split at the first
    one: [bucket_id] is what precedes it (and holds no slash),
    [access_key_id] is all that follows, and the state gets [id],
    [bucket_id] and [access_key_id] without a diagnostic; ["b1/k1"] gives
    ["b1"] and ["k1"].  An identifier without a slash is rejected with an
    error and the state is left unset. *)
Theorem ImportState_splits_on_first_slash (id : string) :
  (strings.Contains id "/" = true ->
   exists bucketID accessKeyID,
     id = bucketID ++ "/" ++ accessKeyID
     /\ strings.Contains bucketID "/" = false
     /\ parseImportID id = (bucketID, accessKeyID, true)
     /\ BucketPermissionResource_ImportState id
        = mkResponse []
            (StateSet {| bp_ID := types.Value id;
                         bp_BucketID := types.Value bucketID;
                         bp_AccessKeyID := types.Value accessKeyID;
                         bp_Read := types.Null;
                         bp_Write := types.Null;
                         bp_Owner := types.Null |}))
  /\ (strings.Contains id "/" = false ->
      parseImportID id = (EmptyString, EmptyString, false)
      /\ HasError (BucketPermissionResource_ImportState id) = true
      /\ State (BucketPermissionResource_ImportState id) = Untouched)
  /\ parseImportID "b1/k1" = ("b1", "k1", true).
Proof.
  split; [|split].
  - intros H. destruct (Contains_slash_split id H) as (a & suf & -> & Ha).
    exists a, suf. repeat split; auto using parseImportID_split.
    unfold BucketPermissionResource_ImportState.
    now rewrite (parseImportID_split a suf Ha).
  - intros H. unfold BucketPermissionResource_ImportState.
    rewrite (parseImportID_no_slash id H). repeat split.
  - reflexivity.
Qed.

(** The two branches at ["b1/k1/x"] (split at the first slash only) and at
    ["b1k1"]. *)
Lemma ImportState_splits_on_first_slash_witness :
  (exists bucketID accessKeyID,
     "b1/k1/x" = bucketID ++ "/" ++ accessKeyID
     /\ strings.Contains bucketID "/" = false
     /\ parseImportID "b1/k1/x" = (bucketID, accessKeyID, true))
  /\ State (BucketPermissionResource_ImportState "b1k1") = Untouched.
Proof.
  split.
  - destruct (ImportState_splits_on_first_slash "b1/k1/x") as [H _].
    destruct (H eq_refl) as (b & k & E & Hb & Hp & _).
    exists b, k. repeat split; assumption.
  - destruct (ImportState_splits_on_first_slash "b1k1") as [_ [H _]].
    destruct (H eq_refl) as (_ & _ & Hs). exact Hs.
Defined.

End ImportFacts.

(* ------------------------------------------------------------------ *)
(** ** The client: classification of responses *)

Section ClientFacts.

Import client.

Context {W : World}.

Lemma bind_eq {A B} (m : M A) (k : A -> M B) (n n' : Net) (a : A) :
  m n = (a, n') -> bind m k n = k a n'.
Proof. unfold bind. now intros ->. Qed.

Lemma apiError_has_status (resp : HttpResponse) :
  strings.Contains (apiError resp) (fmt_d (StatusCode resp)) = true.
Proof. unfold apiError. apply Contains_append. Qed.

Lemma apiError_has_body (resp : HttpResponse) :
  strings.Contains (apiError resp) (RespBody resp) = true.
Proof.
  unfold apiError.
  replace ("API request failed with status " ++ fmt_d (StatusCode resp)
           ++ ": " ++ RespBody resp)
    with (("API request failed with status " ++ fmt_d (StatusCode resp) ++ ": ")
          ++ RespBody resp ++ EmptyString).
  - apply Contains_append.
  - now rewrite append_nil_r, !append_assoc.
Qed.

(** Every [doRequest] adds exactly its own entry to the log. *)
Lemma doRequest_log (c : Client) (method path : string)
    (body : option ReqBody) (n : Net) :
  log (snd (doRequest c method path body n))
  = (log n ++ [mkSent method path body])%list.
Proof.
  unfold doRequest.
  destruct (NewRequest_error method (endpoint c ++ path)); [reflexivity|].
  destruct (Do _ (server n)) as [[resp | e] srv']; reflexivity.
Qed.

(** C3.  When the round trip of a lookup ([GetBucketInfo], [GetKeyInfo])
    comes back with status 404, the lookup returns the absent result with a
    nil error. *)
Theorem lookup_404_is_absent (c : Client) (n n' : Net) (resp : HttpResponse) :
  StatusCode resp = StatusNotFound ->
  (forall req,
     round_trip c (GetBucketInfoC req) n = (Ok resp, n') ->
     GetBucketInfo c req n = (Ok None, n')
     /\ call_error c (GetBucketInfoC req) n = (None, n'))
  /\ (forall req,
        round_trip c (GetKeyInfoC req) n = (Ok resp, n') ->
        GetKeyInfo c req n = (Ok None, n')
        /\ call_error c (GetKeyInfoC req) n = (None, n')).
Proof.
  intros H404. split; intros req Hrt; unfold round_trip in Hrt; cbn in Hrt.
  - assert (E : GetBucketInfo c req n = (Ok None, n')).
    { unfold GetBucketInfo. rewrite (bind_eq _ _ _ _ _ Hrt).
      now rewrite H404. }
    split; [exact E|]. cbn. now rewrite (bind_eq _ _ _ _ _ E).
  - assert (E : GetKeyInfo c req n = (Ok None, n')).
    { unfold GetKeyInfo. rewrite (bind_eq _ _ _ _ _ Hrt).
      now rewrite H404. }
    split; [exact E|]. cbn. now rewrite (bind_eq _ _ _ _ _ E).
Qed.

Ltac status_cases resp :=
  repeat match goal with
         | |- context [(StatusCode resp =? ?k)%Z] =>
             destruct (Z.eqb_spec (StatusCode resp) k);
             [ unfold StatusOK, StatusCreated, StatusNoContent,
                 StatusNotFound in *; lia | ]
         end.

(** C4.  For every client call, when its round trip comes back with a status
    that is neither 2xx nor 404, the call returns a non-nil error whose
    message contains the status code in decimal and the response body. *)
Theorem non_2xx_non_404_is_error (c : Client) (k : Call) (n n' : Net)
    (resp : HttpResponse) :
  round_trip c k n = (Ok resp, n') ->
  ~ (200 <= StatusCode resp <= 299)%Z ->
  StatusCode resp <> 404%Z ->
  exists msg,
    call_error c k n = (Some msg, n')
    /\ strings.Contains msg (fmt_d (StatusCode resp)) = true
    /\ strings.Contains msg (RespBody resp) = true.
Proof.
  intros Hrt H2xx H404. exists (apiError resp).
  split; [|split; [apply apiError_has_status | apply apiError_has_body]].
  unfold round_trip in Hrt.
  destruct k; cbn in Hrt; cbn [call_error];
    unfold ListBuckets, GetBucketInfo, CreateBucket, UpdateBucket,
      DeleteBucket, AddBucketAlias, RemoveBucketAlias, AllowBucketKey,
      DenyBucketKey, CreateKey, GetKeyInfo, DeleteKey;
    unfold bind at 1; rewrite (bind_eq _ _ _ _ _ Hrt);
    status_cases resp; reflexivity.
Qed.

End ClientFacts.

Section ClientWitnesses.

Import client.

(** The server of [TestGetBucketInfo_notFound], for both lookups. *)
Lemma lookup_404_is_absent_witness :
  (exists n',
     @GetBucketInfo httptest.scripted httptest.testClient
       {| gb_ID := Some "nonexistent"; gb_GlobalAlias := None |}
       (httptest.NewServer [Ok (mkHttpResponse 404 "Bucket not found")])
     = (Ok None, n'))
  /\ (exists n',
        @GetKeyInfo httptest.scripted httptest.testClient
          {| gk_ID := "GKnonexistent" |}
          (httptest.NewServer [Ok (mkHttpResponse 404 "Key not found")])
        = (Ok None, n')).
Proof.
  split; eexists.
  - eapply (@lookup_404_is_absent httptest.scripted httptest.testClient
              (httptest.NewServer [Ok (mkHttpResponse 404 "Bucket not found")])
              _ (mkHttpResponse 404 "Bucket not found") eq_refl).
    reflexivity.
  - eapply (@lookup_404_is_absent httptest.scripted httptest.testClient
              (httptest.NewServer [Ok (mkHttpResponse 404 "Key not found")])
              _ (mkHttpResponse 404 "Key not found") eq_refl).
    reflexivity.
Defined.

(** The server of [TestClient_errorHandling]: status 500 on [ListBuckets]. *)
Lemma non_2xx_non_404_is_error_witness :
  exists msg n',
    @call_error httptest.scripted httptest.testClient ListBucketsC
      (httptest.NewServer [Ok (mkHttpResponse 500 "Internal server error")])
    = (Some msg, n')
    /\ strings.Contains msg "500" = true
    /\ strings.Contains msg "Internal server error" = true.
Proof.
  destruct (@non_2xx_non_404_is_error httptest.scripted httptest.testClient
              ListBucketsC
              (httptest.NewServer [Ok (mkHttpResponse 500 "Internal server error")])
              _ (mkHttpResponse 500 "Internal server error") eq_refl)
    as (msg & E & Hs & Hb).
  - cbn. lia.
  - cbn. lia.
  - exists msg. eexists. repeat split; [exact E | exact Hs | exact Hb].
Defined.

End ClientWitnesses.

Section LogFacts.

Import client.

Context {W : World}.

Ltac method_log :=
  intros; cbn [wire];
  unfold GetBucketInfo, CreateBucket, UpdateBucket, AllowBucketKey,
    DenyBucketKey, CreateKey, GetKeyInfo, bind, ret;
  match goal with
  | |- context [doRequest ?c ?m ?p ?b ?n] =>
      let HL := fresh "HL" in
      pose proof (doRequest_log c m p b n) as HL;
      destruct (doRequest c m p b n) as [[resp | e] n1]
  end;
  cbn [snd fst] in *;
  repeat match goal with
         | |- context [if ?x then _ else _] => destruct x
         | |- context [match ?x with Ok _ => _ | Err _ => _ end] => destruct x
         end;
  cbn [snd fst]; assumption.

Lemma AllowBucketKey_log (c : Client) (req : BucketKeyPermRequest) (n : Net) :
  log (snd (AllowBucketKey c req n))
  = (log n ++ [wire (AllowBucketKeyC req)])%list.
Proof. method_log. Qed.

Lemma DenyBucketKey_log (c : Client) (req : BucketKeyPermRequest) (n : Net) :
  log (snd (DenyBucketKey c req n))
  = (log n ++ [wire (DenyBucketKeyC req)])%list.
Proof. method_log. Qed.

Lemma CreateBucket_log (c : Client) (req : CreateBucketRequest) (n : Net) :
  log (snd (CreateBucket c req n))
  = (log n ++ [wire (CreateBucketC req)])%list.
Proof. method_log. Qed.

Lemma UpdateBucket_log (c : Client) (id : string) (req : UpdateBucketRequest)
    (n : Net) :
  log (snd (UpdateBucket c id req n))
  = (log n ++ [wire (UpdateBucketC id req)])%list.
Proof. method_log. Qed.

Lemma GetBucketInfo_log (c : Client) (req : GetBucketInfoRequest) (n : Net) :
  log (snd (GetBucketInfo c req n))
  = (log n ++ [wire (GetBucketInfoC req)])%list.
Proof. method_log. Qed.


Lemma GetKeyInfo_log (c : Client) (req : GetKeyInfoRequest) (n : Net) :
  log (snd (GetKeyInfo c req n)) = (log n ++ [wire (GetKeyInfoC req)])%list.
Proof. method_log. Qed.

End LogFacts.

Section PermissionFacts.

Import client provider.

Context {W : World}.

Lemma Update_allowReq_spec (data state : BucketPermissionResourceModel) :
  AllowBucketKeyC (Update_allowReq data state) = spec.grant_call data state.
Proof.
  unfold Update_allowReq, spec.grant_call, spec.flags_turning_on,
    spec.turning_on, spec.flags; cbn.
  destruct (types.ValueBool (bp_Read data)), (types.ValueBool (bp_Read state)),
    (types.ValueBool (bp_Write data)), (types.ValueBool (bp_Write state)),
    (types.ValueBool (bp_Owner data)), (types.ValueBool (bp_Owner state));
    reflexivity.
Qed.

Lemma Update_denyReq_spec (data state : BucketPermissionResourceModel) :
  DenyBucketKeyC (Update_denyReq data state) = spec.revoke_call data state.
Proof.
  unfold Update_denyReq, spec.revoke_call, spec.flags_turning_off,
    spec.turning_off, spec.flags; cbn.
  destruct (types.ValueBool (bp_Read data)), (types.ValueBool (bp_Read state)),
    (types.ValueBool (bp_Write data)), (types.ValueBool (bp_Write state)),
    (types.ValueBool (bp_Owner data)), (types.ValueBool (bp_Owner state));
    reflexivity.
Qed.

(** The calls of an [Update], exactly. *)
Lemma Update_log (c : Client) (data state : BucketPermissionResourceModel)
    (n : Net) :
  log (snd (BucketPermissionResource_Update c data state n))
  = (log n
     ++ (if spec.any (spec.flags_turning_on (spec.flags state) (spec.flags data))
         then [wire (spec.grant_call data state)] else [])
     ++ (if spec.any (spec.flags_turning_off (spec.flags state) (spec.flags data))
            && spec.grant_passes c data state n
         then [wire (spec.revoke_call data state)] else []))%list.
Proof.
  unfold spec.grant_passes.
  rewrite <- Update_allowReq_spec, <- Update_denyReq_spec.
  unfold BucketPermissionResource_Update, spec.any, spec.flags_turning_on,
    spec.flags_turning_off, spec.turning_on, spec.turning_off, spec.flags.
  cbn [Read Write Owner].
  generalize (Update_allowReq data state) (Update_denyReq data state).
  intros areq dreq.
  destruct (types.ValueBool (bp_Read data)), (types.ValueBool (bp_Read state)),
    (types.ValueBool (bp_Write data)), (types.ValueBool (bp_Write state)),
    (types.ValueBool (bp_Owner data)), (types.ValueBool (bp_Owner state));
    cbn [Bool.eqb negb andb orb]; unfold bind, ret;
    repeat match goal with
      | |- context [AllowBucketKey c areq ?m] =>
          let H := fresh "HA" in
          pose proof (AllowBucketKey_log c areq m) as H;
          destruct (AllowBucketKey c areq m) as [[? | ?] ?];
          cbn [fst snd is_err negb andb] in *
      | |- context [DenyBucketKey c dreq ?m] =>
          let H := fresh "HD" in
          pose proof (DenyBucketKey_log c dreq m) as H;
          destruct (DenyBucketKey c dreq m) as [[? | ?] ?];
          cbn [fst snd] in *
      end;
    cbn [fst snd];
    repeat match goal with H : log _ = _ |- _ => rewrite H; clear H end;
    rewrite <- ?app_assoc, ?app_nil_r; reflexivity.
Qed.

(** C1, as amended.  An [Update] from the flags [prev] of the prior state to
    the flags [want] of the plan makes no call when [prev = want]; makes
    exactly one [AllowBucketKey] call, carrying exactly the flags that turn
    on, when some flag turns on, and none otherwise; makes exactly one
    [DenyBucketKey] call, carrying exactly the flags that turn off, when
    some flag turns off and the grant call (if one was made) did not fail,
    and none when no flag turns off; and makes at most two calls.  From
    (false,false,false) to (true,true,false) the only call is the grant of
    (true,true,false); from (true,true,true) to (false,false,false) the only
    call is the revoke of (true,true,true). *)
Theorem Update_reconciles (c : Client)
    (data state : BucketPermissionResourceModel) (n : Net) :
  let prev := spec.flags state in
  let want := spec.flags data in
  let on := spec.flags_turning_on prev want in
  let off := spec.flags_turning_off prev want in
  let bucket := types.ValueString (bp_BucketID data) in
  let key := types.ValueString (bp_AccessKeyID data) in
  exists calls,
    log (snd (BucketPermissionResource_Update c data state n))
    = (log n ++ calls)%list
    /\ (List.length calls <= 2)%nat
    /\ (prev = want -> calls = [])
    /\ (spec.any on = true ->
        spec.calls_to "/v2/AllowBucketKey" calls
        = [wire (AllowBucketKeyC (mkBucketKeyPermRequest bucket key on))])
    /\ (spec.any on = false -> spec.calls_to "/v2/AllowBucketKey" calls = [])
    /\ (spec.any off = true ->
        spec.grant_passes c data state n = true ->
        spec.calls_to "/v2/DenyBucketKey" calls
        = [wire (DenyBucketKeyC (mkBucketKeyPermRequest bucket key off))])
    /\ (spec.any off = false -> spec.calls_to "/v2/DenyBucketKey" calls = [])
    /\ (prev = mkPermissions false false false ->
        want = mkPermissions true true false ->
        calls = [wire (AllowBucketKeyC
                         (mkBucketKeyPermRequest bucket key
                            (mkPermissions true true false)))])
    /\ (prev = mkPermissions true true true ->
        want = mkPermissions false false false ->
        calls = [wire (DenyBucketKeyC
                         (mkBucketKeyPermRequest bucket key
                            (mkPermissions true true true)))]).
Proof.
  intros prev want on off bucket key.
  eexists. split; [apply Update_log|].
  fold prev want on off.
  change (spec.grant_call data state)
    with (AllowBucketKeyC (mkBucketKeyPermRequest bucket key on)).
  change (spec.revoke_call data state)
    with (DenyBucketKeyC (mkBucketKeyPermRequest bucket key off)).
  unfold spec.grant_passes. fold prev want on.
  generalize (is_err (fst (AllowBucketKey c (Update_allowReq data state) n)))
    as failed.
  subst on off. generalize bucket key. clear bucket key.
  destruct prev as [r0 w0 o0], want as [r1 w1 o1].
  intros bucket key failed.
  repeat split.
  - destruct r0, w0, o0, r1, w1, o1, failed; cbn; lia.
  - intros E; injection E as -> -> ->. destruct r1, w1, o1; reflexivity.
  - destruct r0, w0, o0, r1, w1, o1, failed; cbn; intros;
      try discriminate; reflexivity.
  - destruct r0, w0, o0, r1, w1, o1, failed; cbn; intros;
      try discriminate; reflexivity.
  - destruct r0, w0, o0, r1, w1, o1, failed; cbn; intros;
      try discriminate; reflexivity.
  - destruct r0, w0, o0, r1, w1, o1, failed; cbn; intros;
      try discriminate; reflexivity.
  - intros E0 E1. injection E0 as -> -> ->. injection E1 as -> -> ->.
    reflexivity.
  - intros E0 E1. injection E0 as -> -> ->. injection E1 as -> -> ->.
    reflexivity.
Qed.

Lemma findKeyInfo_first (pre : list BucketKeyInfo) (row : BucketKeyInfo)
    (post : list BucketKeyInfo) (key : string) :
  bki_AccessKeyID row = key ->
  (forall r, In r pre -> bki_AccessKeyID r <> key) ->
  findKeyInfo (pre ++ row :: post) key = Some (bki_Permissions row).
Proof.
  intros Hrow. induction pre as [|r pre IH]; intros Hpre; cbn.
  - rewrite Hrow. now rewrite String.eqb_refl.
  - destruct (String.eqb_spec (bki_AccessKeyID r) key) as [E | _].
    + exfalso. apply (Hpre r); [now left | exact E].
    + apply IH. intros r' Hin. apply Hpre. now right.
Qed.

Lemma findKeyInfo_none (keys : list BucketKeyInfo) (key : string) :
  (forall r, In r keys -> bki_AccessKeyID r <> key) ->
  findKeyInfo keys key = None.
Proof.
  induction keys as [|r keys IH]; intros H; cbn; [reflexivity|].
  destruct (String.eqb_spec (bki_AccessKeyID r) key) as [E | _].
  - exfalso. apply (H r); [now left | exact E].
  - apply IH. intros r' Hin. apply H. now right.
Qed.

Lemma updateStateFromBucket_spec (data : BucketPermissionResourceModel)
    (bucket : Bucket) :
  spec.flags_from_key_list bucket (updateStateFromBucket data bucket)
  /\ bp_ID (updateStateFromBucket data bucket) = bp_ID data
  /\ bp_BucketID (updateStateFromBucket data bucket) = bp_BucketID data
  /\ bp_AccessKeyID (updateStateFromBucket data bucket) = bp_AccessKeyID data.
Proof.
  assert (Hk : bp_AccessKeyID (updateStateFromBucket data bucket)
               = bp_AccessKeyID data).
  { unfold updateStateFromBucket. now destruct (findKeyInfo _ _). }
  split; [|split; [|split]]; try exact Hk;
    try (unfold updateStateFromBucket; now destruct (findKeyInfo _ _)).
  unfold spec.flags_from_key_list. rewrite Hk. split.
  - intros pre row post Hkeys Hrow Hpre. unfold updateStateFromBucket.
    rewrite Hkeys, (findKeyInfo_first pre row post _ Hrow Hpre).
    repeat split.
  - intros Hnone. unfold updateStateFromBucket.
    rewrite (findKeyInfo_none _ _ Hnone). repeat split.
Qed.

End PermissionFacts.

Section PermissionWitnesses.

Import client provider.

(** From (read) to (write): one grant of write, then one revoke of read,
    both answered with status 200. *)
Lemma Update_reconciles_witness :
  exists calls,
    log (snd (@BucketPermissionResource_Update httptest.scripted
                httptest.testClient
                (httptest.permission false true false)
                (httptest.permission true false false)
                (httptest.NewServer [httptest.ok_b1; httptest.ok_b1])))
    = calls
    /\ spec.calls_to "/v2/AllowBucketKey" calls
       = [wire (AllowBucketKeyC
                  (mkBucketKeyPermRequest "b1" "k1"
                     (mkPermissions false true false)))]
    /\ spec.calls_to "/v2/DenyBucketKey" calls
       = [wire (DenyBucketKeyC
                  (mkBucketKeyPermRequest "b1" "k1"
                     (mkPermissions true false false)))].
Proof.
  destruct (@Update_reconciles httptest.scripted httptest.testClient
              (httptest.permission false true false)
              (httptest.permission true false false)
              (httptest.NewServer [httptest.ok_b1; httptest.ok_b1]))
    as (calls & Hlog & _ & _ & Hon & _ & Hoff & _).
  exists calls. split; [exact Hlog|]. split.
  - apply Hon. reflexivity.
  - apply Hoff; reflexivity.
Defined.

(** C1 as stated fails.  From (write) to (read) with a server that answers
    the grant call with status 500: the write flag turns off, and yet no
    [DenyBucketKey] call is made, because [Update] returns after the failed
    grant. *)
Lemma Update_failed_grant_skips_revoke :
  spec.any (spec.flags_turning_off
              (spec.flags (httptest.permission false true false))
              (spec.flags (httptest.permission true false false))) = true
  /\ log (snd (@BucketPermissionResource_Update httptest.scripted
                 httptest.testClient
                 (httptest.permission true false false)
                 (httptest.permission false true false)
                 (httptest.NewServer [httptest.internal_error; httptest.ok_b1])))
     = [wire (AllowBucketKeyC
                (mkBucketKeyPermRequest "b1" "k1"
                   (mkPermissions true false false)))]
  /\ spec.calls_to "/v2/DenyBucketKey"
       (log (snd (@BucketPermissionResource_Update httptest.scripted
                    httptest.testClient
                    (httptest.permission true false false)
                    (httptest.permission false true false)
                    (httptest.NewServer
                       [httptest.internal_error; httptest.ok_b1]))))
     = [].
Proof. repeat split. Qed.

End PermissionWitnesses.

(* ------------------------------------------------------------------ *)
(** ** garage_key *)

Section KeyFacts.

Import client provider.

Context {W : World}.

(** C9.  A [Read] that finds the key sets the state to the [id] and [name]
    of the server's answer and to the [secret_access_key] of the prior
    state, whatever the answer holds in its own secret field. *)
Theorem Read_keeps_secret (c : Client) (data : KeyResourceModel)
    (n n' : Net) (key : AccessKey) :
  GetKeyInfo c {| gk_ID := types.ValueString (k_ID data) |} n
  = (Ok (Some key), n') ->
  exists st,
    KeyResource_Read c data n = (mkResponse [] (StateSet st), n')
    /\ k_ID st = types.Value (ak_AccessKeyID key)
    /\ k_Name st = types.Value (ak_Name key)
    /\ k_SecretAccessKey st = k_SecretAccessKey data.
Proof.
  intros H. unfold KeyResource_Read. rewrite (bind_eq _ _ _ _ _ H).
  eexists. split; [reflexivity|]. repeat split.
Qed.

(** C10.  [Update] of a key leaves the network as it was (no call in the
    log, the server's state untouched), raises no diagnostic and sets the
    state to the plan as given. *)
Theorem Update_is_local (c : Client) (data : KeyResourceModel) (n : Net) :
  KeyResource_Update c data n = (mkResponse [] (StateSet data), n)
  /\ log (snd (KeyResource_Update c data n)) = log n
  /\ server (snd (KeyResource_Update c data n)) = server n.
Proof. repeat split. Qed.


End KeyFacts.

Section KeyWitnesses.

Import client provider.

(** A refresh answered with a key whose name changed on the server. *)
Lemma Read_keeps_secret_witness :
  exists st n',
    @KeyResource_Read httptest.scripted httptest.testClient
      httptest.key_in_state (httptest.NewServer [httptest.ok_key_app])
    = (mkResponse [] (StateSet st), n')
    /\ k_Name st = types.Value "renamed-on-server"
    /\ k_SecretAccessKey st = types.Value "secret-from-creation".
Proof.
  destruct (@Read_keeps_secret httptest.scripted httptest.testClient
              httptest.key_in_state (httptest.NewServer [httptest.ok_key_app])
              _ httptest.key_app eq_refl)
    as (st & E & _ & Hn & Hs).
  exists st. eexists. split; [exact E|]. split; [exact Hn | exact Hs].
Defined.

End KeyWitnesses.

(* ------------------------------------------------------------------ *)
(** ** garage_bucket: quotas *)

Section QuotaFacts.

Import client provider.

Context {W : World}.

Lemma BucketResource_Read_found (c : Client) (st : BucketResourceModel)
    (n n' : Net) (bucket : Bucket) :
  GetBucketInfo c
    {| gb_ID := Some (types.ValueString (b_ID st)); gb_GlobalAlias := None |} n
  = (Ok (Some bucket), n') ->
  BucketResource_Read c st n
  = (mkResponse [] (StateSet (Read_state st bucket)), n').
Proof.
  intros H. unfold BucketResource_Read. now rewrite (bind_eq _ _ _ _ _ H).
Qed.

End QuotaFacts.

(* ================================================================== *)
(** * Further properties of the client *)

Section ClientCalls.

Import client.

Context {W : World}.

Ltac unfold_methods :=
  unfold ListBuckets, GetBucketInfo, CreateBucket, UpdateBucket,
    DeleteBucket, AddBucketAlias, RemoveBucketAlias, AllowBucketKey,
    DenyBucketKey, CreateKey, GetKeyInfo, DeleteKey.

(** X1.  Every client call hands exactly one request to [doRequest], its
    own, whatever comes back: a result, an API error, a body that does not
    decode or a transport failure.  Nothing is retried. *)
Theorem every_call_sends_once (c : Client) (k : Call) (n : Net) :
  log (snd (call_error c k n)) = (log n ++ [wire k])%list.
Proof.
  destruct k; cbn [call_error wire]; unfold_methods; unfold bind, ret;
    match goal with
    | |- context [doRequest ?c ?m ?p ?b ?n] =>
        let HL := fresh "HL" in
        pose proof (doRequest_log c m p b n) as HL;
        destruct (doRequest c m p b n) as [[resp | e] n1]
    end;
    cbn [snd fst] in *;
    repeat match goal with
           | |- context [if ?x then _ else _] => destruct x
           | |- context [match ?x with Ok _ => _ | Err _ => _ end] =>
               destruct x
           end;
    cbn [snd fst]; assumption.
Qed.

Lemma doRequest_failure_text (c : Client) (method path : string)
    (body : option ReqBody) (n n' : Net) (e : string) :
  doRequest c method path body n = (Err e, n') ->
  prefix "failed to create request: " e = true
  \/ prefix "failed to execute request: " e = true.
Proof.
  unfold doRequest.
  destruct (NewRequest_error method (endpoint c ++ path)) as [e0|].
  - intros H. injection H as <- _. left.
    exact (prefix_append "failed to create request: " e0).
  - destruct (Do _ (server n)) as [[resp | e1] srv']; intros H;
      [discriminate|].
    injection H as <- _. right.
    exact (prefix_append "failed to execute request: " e1).
Qed.

Lemma failed_round_trip_is_returned (c : Client) (k : Call) (n n' : Net)
    (e : string) :
  round_trip c k n = (Err e, n') -> call_error c k n = (Some e, n').
Proof.
  intros Hrt. unfold round_trip in Hrt.
  destruct k; cbn in Hrt; cbn [call_error]; unfold_methods;
    unfold bind at 1; rewrite (bind_eq _ _ _ _ _ Hrt); reflexivity.
Qed.

(** X2.  When the round trip of a call fails before a response exists (the
    request cannot be built, or the transport fails), the call returns that
    very error, whose text starts with "failed to create request: " or
    "failed to execute request: ". *)
Theorem transport_failure_is_returned (c : Client) (k : Call) (n n' : Net)
    (e : string) :
  round_trip c k n = (Err e, n') ->
  call_error c k n = (Some e, n')
  /\ (prefix "failed to create request: " e = true
      \/ prefix "failed to execute request: " e = true).
Proof.
  intros Hrt. split.
  - now apply failed_round_trip_is_returned.
  - unfold round_trip in Hrt. eapply doRequest_failure_text. exact Hrt.
Qed.

(** X3.  When the request of a call cannot be built, the call fails with
    "failed to create request: ..." and the server is never contacted: its
    state is what it was. *)
Theorem unbuildable_request_stays_local (c : Client) (k : Call) (n : Net)
    (e : string) :
  NewRequest_error (s_method (wire k)) (endpoint c ++ s_path (wire k))
  = Some e ->
  call_error c k n
  = (Some ("failed to create request: " ++ e),
     mkNet (server n) (log n ++ [wire k])%list).
Proof.
  intros HN.
  assert (Hrt : round_trip c k n
                = (Err ("failed to create request: " ++ e),
                   mkNet (server n) (log n ++ [wire k])%list)).
  { unfold round_trip, doRequest. rewrite HN. now destruct (wire k). }
  exact (failed_round_trip_is_returned c k n _ _ Hrt).
Qed.

Ltac status_known resp :=
  unfold StatusOK, StatusCreated, StatusNoContent, StatusNotFound;
  repeat match goal with
         | H : (_ || _) = false |- _ => apply orb_false_iff in H as [? ?]
         | H : (StatusCode resp =? ?k)%Z = false |- _ => rewrite !H; clear H
         end.

Lemma call_error_unaccepted (c : Client) (k : Call) (n n' : Net)
    (resp : HttpResponse) :
  round_trip c k n = (Ok resp, n') ->
  spec.accepted k (StatusCode resp) = false ->
  (spec.is_lookup k = true -> StatusCode resp <> 404%Z) ->
  call_error c k n = (Some (apiError resp), n').
Proof.
  intros Hrt Hacc H404. unfold round_trip in Hrt.
  destruct k; cbn in Hrt, Hacc, H404; cbn [call_error]; unfold_methods;
    unfold bind at 1; rewrite (bind_eq _ _ _ _ _ Hrt);
    try (specialize (H404 eq_refl); apply Z.eqb_neq in H404);
    status_known resp; reflexivity.
Qed.

(** X4.  A status that a call does not accept makes it return the API
    error with the status and the body: for the write calls this includes
    404, and for every call it includes the 2xx statuses outside its own
    list (200; 201 only for [CreateBucket] and [CreateKey]; 204 only for the
    calls that return nothing).  The one exception is 404 on a lookup. *)
Theorem unaccepted_status_is_api_error (c : Client) (k : Call) (n n' : Net)
    (resp : HttpResponse) :
  round_trip c k n = (Ok resp, n') ->
  spec.accepted k (StatusCode resp) = false ->
  (spec.is_lookup k = true -> StatusCode resp <> 404%Z) ->
  call_error c k n = (Some (apiError resp), n')
  /\ strings.Contains (apiError resp) (fmt_d (StatusCode resp)) = true
  /\ strings.Contains (apiError resp) (RespBody resp) = true.
Proof.
  intros Hrt Hacc H404.
  split; [|split; [apply apiError_has_status | apply apiError_has_body]].
  now apply call_error_unaccepted.
Qed.

Lemma call_error_accepted (c : Client) (k : Call) (n n' : Net)
    (resp : HttpResponse) :
  round_trip c k n = (Ok resp, n') ->
  spec.accepted k (StatusCode resp) = true ->
  call_error c k n = (spec.decode_verdict k (RespBody resp), n').
Proof.
  intros Hrt Hacc. unfold round_trip in Hrt.
  destruct k; cbn in Hrt, Hacc; cbn [call_error spec.decode_verdict];
    unfold_methods; unfold bind at 1; rewrite (bind_eq _ _ _ _ _ Hrt);
    unfold StatusOK, StatusCreated, StatusNoContent, StatusNotFound;
    repeat match type of Hacc with
           | (_ || _) = true => apply orb_true_iff in Hacc as [Hacc | Hacc]
           end;
    apply Z.eqb_eq in Hacc; rewrite Hacc; cbn;
    repeat match goal with
           | |- context [match ?x with Ok _ => _ | Err _ => _ end] =>
               destruct x
           end;
    reflexivity.
Qed.

(** X5.  After an accepted status the error of a call is the verdict of the
    decoder of its result type on the body, and nothing else: nil when the
    body decodes, "failed to decode response: ..." when it does not, and
    always nil for the calls that return nothing, which never read the
    body. *)
Theorem accepted_status_leaves_decoding (c : Client) (k : Call) (n n' : Net)
    (resp : HttpResponse) :
  round_trip c k n = (Ok resp, n') ->
  spec.accepted k (StatusCode resp) = true ->
  call_error c k n = (spec.decode_verdict k (RespBody resp), n')
  /\ (spec.returns_nothing k = true -> call_error c k n = (None, n')).
Proof.
  intros Hrt Hacc.
  pose proof (call_error_accepted c k n n' resp Hrt Hacc) as E.
  split; [exact E|].
  intros Hn. rewrite E. destruct k; try discriminate; reflexivity.
Qed.

(** X6.  A lookup answered with status 200 and a body that decodes returns
    the decoded record (present, with a nil error). *)
Theorem lookup_200_is_found (c : Client) (n n' : Net) (resp : HttpResponse) :
  StatusCode resp = StatusOK ->
  (forall req bucket,
     round_trip c (GetBucketInfoC req) n = (Ok resp, n') ->
     decodeBucket (RespBody resp) = Ok bucket ->
     GetBucketInfo c req n = (Ok (Some bucket), n'))
  /\ (forall req key,
        round_trip c (GetKeyInfoC req) n = (Ok resp, n') ->
        decodeKey (RespBody resp) = Ok key ->
        GetKeyInfo c req n = (Ok (Some key), n')).
Proof.
  intros H200. split; intros req v Hrt Hdec; unfold round_trip in Hrt;
    cbn in Hrt.
  - unfold GetBucketInfo. rewrite (bind_eq _ _ _ _ _ Hrt).
    now rewrite H200, Hdec.
  - unfold GetKeyInfo. rewrite (bind_eq _ _ _ _ _ Hrt).
    now rewrite H200, Hdec.
Qed.

(** From the error of a call back to the result of the method. *)
Lemma call_error_Err {A} (m : M (result A)) (n n' : Net) (e : string) :
  bind m (fun r => ret (error_of r)) n = (Some e, n') -> m n = (Err e, n').
Proof.
  unfold bind, ret. destruct (m n) as [[a | e0] n1]; cbn; intros H;
    [discriminate | now injection H as -> ->].
Qed.

Lemma call_error_Ok_tt (m : M (result unit)) (n n' : Net) :
  bind m (fun r => ret (error_of r)) n = (None, n') -> m n = (Ok tt, n').
Proof.
  unfold bind, ret. destruct (m n) as [[[] | e0] n1]; cbn; intros H;
    [now injection H as -> | discriminate].
Qed.

Lemma Contains_prepend (p s x : string) :
  strings.Contains s x = true -> strings.Contains (p ++ s) x = true.
Proof.
  intros H. induction p as [|ch p IH]; [exact H|].
  simpl append. rewrite Contains_unfold, IH. apply orb_true_r.
Qed.

End ClientCalls.

(* ================================================================== *)
(** * Further properties of the provider and the resources *)

Section ConfigureFacts.

Import client provider.

(** X7.  [Configure] resolves each of the two settings from the
    configuration or, failing that, from its environment variable.  If both
    resolve to a non-empty string it raises nothing and hands the client
    [NewClient endpoint token] to data sources and resources; otherwise it
    hands over no client and raises one error per missing setting, the
    endpoint's first. *)
Theorem Configure_resolves_settings (Getenv : string -> string)
    (data : GarageProviderModel) (ep tok : string) :
  spec.resolved (Getenv "GARAGE_ENDPOINT") (p_Endpoint data) ep ->
  spec.resolved (Getenv "GARAGE_TOKEN") (p_Token data) tok ->
  (ep <> EmptyString -> tok <> EmptyString ->
   GarageProvider_Configure Getenv data
   = mkConfigureResponse [] (Some (NewClient ep tok))
       (Some (NewClient ep tok)))
  /\ (ep = EmptyString \/ tok = EmptyString ->
      DataSourceData (GarageProvider_Configure Getenv data) = None
      /\ ResourceData (GarageProvider_Configure Getenv data) = None
      /\ map Summary (cr_Diagnostics (GarageProvider_Configure Getenv data))
         = ((if String.eqb ep EmptyString
             then ["Missing Garage Endpoint"] else [])
            ++ (if String.eqb tok EmptyString
                then ["Missing Garage Token"] else []))%list).
Proof.
  intros Hep Htok.
  assert (Eep : (if String.eqb (types.ValueString (p_Endpoint data)) EmptyString
                 then Getenv "GARAGE_ENDPOINT"
                 else types.ValueString (p_Endpoint data)) = ep).
  { inversion Hep as [s Hs E1 E2 | | | ]; subst; cbn; try reflexivity.
    now destruct (String.eqb_spec ep EmptyString). }
  assert (Etok : (if String.eqb (types.ValueString (p_Token data)) EmptyString
                  then Getenv "GARAGE_TOKEN"
                  else types.ValueString (p_Token data)) = tok).
  { inversion Htok as [s Hs E1 E2 | | | ]; subst; cbn; try reflexivity.
    now destruct (String.eqb_spec tok EmptyString). }
  unfold GarageProvider_Configure. cbv zeta. rewrite Eep, Etok.
  clear Hep Htok Eep Etok.
  destruct (String.eqb_spec ep EmptyString) as [-> | Hep];
    destruct (String.eqb_spec tok EmptyString) as [-> | Htok]; cbn;
    split; intros; try tauto; try (destruct H; congruence);
    repeat split.
Qed.

End ConfigureFacts.

Section ConfigureWitnesses.

Import client provider.

(** The endpoint comes from the configuration although the environment has
    one too; the token comes from the environment. *)
Lemma Configure_resolves_settings_witness :
  GarageProvider_Configure
    (fun name =>
       if String.eqb name "GARAGE_ENDPOINT" then "http://from-env:3903"
       else if String.eqb name "GARAGE_TOKEN" then "env-token"
       else EmptyString)
    {| p_Endpoint := types.Value "http://localhost:3903/";
       p_Token := types.Null |}
  = mkConfigureResponse []
      (Some (mkClient "http://localhost:3903" "env-token"))
      (Some (mkClient "http://localhost:3903" "env-token")).
Proof.
  refine (proj1 (Configure_resolves_settings _ _
                   "http://localhost:3903/" "env-token" _ _) _ _).
  - apply spec.resolved_explicit. discriminate.
  - apply spec.resolved_null.
  - discriminate.
  - discriminate.
Defined.

End ConfigureWitnesses.

Section ReadFacts.

Import client provider.

Context {W : World}.

Lemma GetBucketInfo_gone (c : Client) (req : GetBucketInfoRequest)
    (n n' : Net) (resp : HttpResponse) :
  round_trip c (GetBucketInfoC req) n = (Ok resp, n') ->
  StatusCode resp = StatusNotFound ->
  GetBucketInfo c req n = (Ok None, n').
Proof.
  intros Hrt H404. unfold round_trip in Hrt. cbn in Hrt.
  unfold GetBucketInfo. rewrite (bind_eq _ _ _ _ _ Hrt). now rewrite H404.
Qed.

Lemma GetKeyInfo_gone (c : Client) (req : GetKeyInfoRequest)
    (n n' : Net) (resp : HttpResponse) :
  round_trip c (GetKeyInfoC req) n = (Ok resp, n') ->
  StatusCode resp = StatusNotFound ->
  GetKeyInfo c req n = (Ok None, n').
Proof.
  intros Hrt H404. unfold round_trip in Hrt. cbn in Hrt.
  unfold GetKeyInfo. rewrite (bind_eq _ _ _ _ _ Hrt). now rewrite H404.
Qed.

Lemma GetBucketInfo_api_error (c : Client) (req : GetBucketInfoRequest)
    (n n' : Net) (resp : HttpResponse) :
  round_trip c (GetBucketInfoC req) n = (Ok resp, n') ->
  StatusCode resp <> 200%Z -> StatusCode resp <> 404%Z ->
  GetBucketInfo c req n = (Err (apiError resp), n').
Proof.
  intros Hrt H200 H404. apply call_error_Err.
  apply (call_error_unaccepted c (GetBucketInfoC req) n n' resp Hrt);
    [now apply Z.eqb_neq | intros _; exact H404].
Qed.

Lemma GetKeyInfo_api_error (c : Client) (req : GetKeyInfoRequest)
    (n n' : Net) (resp : HttpResponse) :
  round_trip c (GetKeyInfoC req) n = (Ok resp, n') ->
  StatusCode resp <> 200%Z -> StatusCode resp <> 404%Z ->
  GetKeyInfo c req n = (Err (apiError resp), n').
Proof.
  intros Hrt H200 H404. apply call_error_Err.
  apply (call_error_unaccepted c (GetKeyInfoC req) n n' resp Hrt);
    [now apply Z.eqb_neq | intros _; exact H404].
Qed.

(** X8.  A refresh whose lookup is answered with status 404 removes the
    resource from the state and raises nothing: for a bucket, for a key,
    and for a bucket permission (whose lookup is the one of its bucket). *)
Theorem Read_of_missing_removes_resource (c : Client) (n n' : Net)
    (resp : HttpResponse) :
  StatusCode resp = StatusNotFound ->
  (forall data,
     round_trip c
       (GetBucketInfoC {| gb_ID := Some (types.ValueString (b_ID data));
                          gb_GlobalAlias := None |}) n
     = (Ok resp, n') ->
     BucketResource_Read c data n = (mkResponse [] RemoveResource, n'))
  /\ (forall data,
        round_trip c
          (GetKeyInfoC {| gk_ID := types.ValueString (k_ID data) |}) n
        = (Ok resp, n') ->
        KeyResource_Read c data n = (mkResponse [] RemoveResource, n'))
  /\ (forall data,
        round_trip c
          (GetBucketInfoC
             {| gb_ID := Some (types.ValueString (bp_BucketID data));
                gb_GlobalAlias := None |}) n
        = (Ok resp, n') ->
        BucketPermissionResource_Read c data n
        = (mkResponse [] RemoveResource, n')).
Proof.
  intros H404. split; [|split]; intros data Hrt.
  - unfold BucketResource_Read.
    now rewrite (bind_eq _ _ _ _ _ (GetBucketInfo_gone _ _ _ _ _ Hrt H404)).
  - unfold KeyResource_Read.
    now rewrite (bind_eq _ _ _ _ _ (GetKeyInfo_gone _ _ _ _ _ Hrt H404)).
  - unfold BucketPermissionResource_Read.
    now rewrite (bind_eq _ _ _ _ _ (GetBucketInfo_gone _ _ _ _ _ Hrt H404)).
Qed.

Lemma detail_has_api_error (p : string) (resp : HttpResponse) :
  strings.Contains (p ++ apiError resp) (fmt_d (StatusCode resp)) = true
  /\ strings.Contains (p ++ apiError resp) (RespBody resp) = true.
Proof.
  split; apply Contains_prepend;
    [apply apiError_has_status | apply apiError_has_body].
Qed.

(** X9.  A refresh whose lookup is answered with a status other than 200
    and 404 leaves the state as it was and raises one "Client Error" whose
    detail contains the status and the body of the response: for a bucket,
    a key and a bucket permission. *)
Theorem Read_failure_keeps_state (c : Client) (n n' : Net)
    (resp : HttpResponse) :
  StatusCode resp <> 200%Z ->
  StatusCode resp <> 404%Z ->
  (forall data,
     round_trip c
       (GetBucketInfoC {| gb_ID := Some (types.ValueString (b_ID data));
                          gb_GlobalAlias := None |}) n
     = (Ok resp, n') ->
     exists d,
       BucketResource_Read c data n = (mkResponse [d] Untouched, n')
       /\ Summary d = "Client Error"
       /\ strings.Contains (Detail d) (fmt_d (StatusCode resp)) = true
       /\ strings.Contains (Detail d) (RespBody resp) = true)
  /\ (forall data,
        round_trip c
          (GetKeyInfoC {| gk_ID := types.ValueString (k_ID data) |}) n
        = (Ok resp, n') ->
        exists d,
          KeyResource_Read c data n = (mkResponse [d] Untouched, n')
          /\ Summary d = "Client Error"
          /\ strings.Contains (Detail d) (fmt_d (StatusCode resp)) = true
          /\ strings.Contains (Detail d) (RespBody resp) = true)
  /\ (forall data,
        round_trip c
          (GetBucketInfoC
             {| gb_ID := Some (types.ValueString (bp_BucketID data));
                gb_GlobalAlias := None |}) n
        = (Ok resp, n') ->
        exists d,
          BucketPermissionResource_Read c data n
          = (mkResponse [d] Untouched, n')
          /\ Summary d = "Client Error"
          /\ strings.Contains (Detail d) (fmt_d (StatusCode resp)) = true
          /\ strings.Contains (Detail d) (RespBody resp) = true).
Proof.
  intros H200 H404. split; [|split]; intros data Hrt; eexists.
  - unfold BucketResource_Read.
    rewrite (bind_eq _ _ _ _ _ (GetBucketInfo_api_error _ _ _ _ _ Hrt H200 H404)).
    split; [reflexivity|]. split; [reflexivity|].
    apply detail_has_api_error.
  - unfold KeyResource_Read.
    rewrite (bind_eq _ _ _ _ _ (GetKeyInfo_api_error _ _ _ _ _ Hrt H200 H404)).
    split; [reflexivity|]. split; [reflexivity|].
    apply detail_has_api_error.
  - unfold BucketPermissionResource_Read.
    rewrite (bind_eq _ _ _ _ _ (GetBucketInfo_api_error _ _ _ _ _ Hrt H200 H404)).
    split; [reflexivity|]. split; [reflexivity|].
    apply detail_has_api_error.
Qed.

Lemma Read_state_idempotent (st : BucketResourceModel) (bucket : Bucket) :
  Read_state (Read_state st bucket) bucket = Read_state st bucket.
Proof.
  unfold Read_state. cbn. now destruct (GlobalAliases bucket).
Qed.

Lemma updateStateFromBucket_idempotent (st : BucketPermissionResourceModel)
    (bucket : Bucket) :
  updateStateFromBucket (updateStateFromBucket st bucket) bucket
  = updateStateFromBucket st bucket.
Proof.
  destruct (updateStateFromBucket_spec st bucket) as (_ & _ & _ & Hk).
  unfold updateStateFromBucket at 1. rewrite Hk.
  unfold updateStateFromBucket.
  destruct (findKeyInfo (Keys bucket) (types.ValueString (bp_AccessKeyID st)));
    reflexivity.
Qed.

(** X10.  Refreshing is idempotent: when the server gives the same answer
    to a second lookup, the second [Read] sets the state the first one set.
    For a bucket and a key the second lookup is by the id the server
    reported; for a bucket permission it is the same lookup again. *)
Theorem Read_twice_is_Read_once (c : Client) (n n1 n2 : Net) :
  (forall st bucket,
     GetBucketInfo c {| gb_ID := Some (types.ValueString (b_ID st));
                        gb_GlobalAlias := None |} n
     = (Ok (Some bucket), n1) ->
     GetBucketInfo c {| gb_ID := Some (ID bucket); gb_GlobalAlias := None |} n1
     = (Ok (Some bucket), n2) ->
     exists st1,
       BucketResource_Read c st n = (mkResponse [] (StateSet st1), n1)
       /\ BucketResource_Read c st1 n1 = (mkResponse [] (StateSet st1), n2))
  /\ (forall st key,
        GetKeyInfo c {| gk_ID := types.ValueString (k_ID st) |} n
        = (Ok (Some key), n1) ->
        GetKeyInfo c {| gk_ID := ak_AccessKeyID key |} n1
        = (Ok (Some key), n2) ->
        exists st1,
          KeyResource_Read c st n = (mkResponse [] (StateSet st1), n1)
          /\ KeyResource_Read c st1 n1 = (mkResponse [] (StateSet st1), n2))
  /\ (forall st bucket,
        GetBucketInfo c
          {| gb_ID := Some (types.ValueString (bp_BucketID st));
             gb_GlobalAlias := None |} n
        = (Ok (Some bucket), n1) ->
        GetBucketInfo c
          {| gb_ID := Some (types.ValueString (bp_BucketID st));
             gb_GlobalAlias := None |} n1
        = (Ok (Some bucket), n2) ->
        exists st1,
          BucketPermissionResource_Read c st n
          = (mkResponse [] (StateSet st1), n1)
          /\ BucketPermissionResource_Read c st1 n1
             = (mkResponse [] (StateSet st1), n2)).
Proof.
  split; [|split].
  - intros st bucket H1 H2. exists (Read_state st bucket). split.
    + now apply BucketResource_Read_found.
    + rewrite <- (Read_state_idempotent st bucket) at 2.
      now apply BucketResource_Read_found.
  - intros st key H1 H2. eexists. split.
    + unfold KeyResource_Read. rewrite (bind_eq _ _ _ _ _ H1). reflexivity.
    + unfold KeyResource_Read. cbn [k_ID types.ValueString types.StringValue].
      rewrite (bind_eq _ _ _ _ _ H2). reflexivity.
  - intros st bucket H1 H2. exists (updateStateFromBucket st bucket). split.
    + unfold BucketPermissionResource_Read.
      now rewrite (bind_eq _ _ _ _ _ H1).
    + unfold BucketPermissionResource_Read.
      destruct (updateStateFromBucket_spec st bucket) as (_ & _ & Hb & _).
      rewrite Hb, (bind_eq _ _ _ _ _ H2).
      now rewrite updateStateFromBucket_idempotent.
Qed.

End ReadFacts.

Section DeleteFacts.

Import client provider.

Context {W : World}.

Ltac unit_method_log :=
  intros; cbn [wire]; unfold DeleteBucket, DeleteKey, bind, ret;
  match goal with
  | |- context [doRequest ?c ?m ?p ?b ?n] =>
      let HL := fresh "HL" in
      pose proof (doRequest_log c m p b n) as HL;
      destruct (doRequest c m p b n) as [[resp | e] n1]
  end;
  cbn [snd fst] in *;
  repeat match goal with
         | |- context [if ?x then _ else _] => destruct x
         end;
  cbn [snd fst]; assumption.

Lemma DeleteBucket_log (c : Client) (req : DeleteBucketRequest) (n : Net) :
  log (snd (DeleteBucket c req n))
  = (log n ++ [wire (DeleteBucketC req)])%list.
Proof. unit_method_log. Qed.

Lemma DeleteKey_log (c : Client) (req : DeleteKeyRequest) (n : Net) :
  log (snd (DeleteKey c req n)) = (log n ++ [wire (DeleteKeyC req)])%list.
Proof. unit_method_log. Qed.

(** X11.  Every [Delete] makes exactly one call and never touches the
    state: [DeleteBucket] and [DeleteKey] by the id in the state, and for a
    bucket permission one [DenyBucketKey] that carries the flags of the
    state, so that a flag the state holds as false is not revoked. *)
Theorem Delete_sends_one_call (c : Client) (n : Net) :
  (forall data,
     log (snd (BucketResource_Delete c data n))
     = (log n
        ++ [wire (DeleteBucketC
                    {| db_ID := types.ValueString (b_ID data) |})])%list
     /\ State (fst (BucketResource_Delete c data n)) = Untouched)
  /\ (forall data,
        log (snd (KeyResource_Delete c data n))
        = (log n
           ++ [wire (DeleteKeyC
                       {| dk_ID := types.ValueString (k_ID data) |})])%list
        /\ State (fst (KeyResource_Delete c data n)) = Untouched)
  /\ (forall data,
        log (snd (BucketPermissionResource_Delete c data n))
        = (log n
           ++ [wire (DenyBucketKeyC
                       {| BucketID := types.ValueString (bp_BucketID data);
                          AccessKeyID :=
                            types.ValueString (bp_AccessKeyID data);
                          Permissions_ := spec.flags data |})])%list
        /\ State (fst (BucketPermissionResource_Delete c data n))
           = Untouched).
Proof.
  split; [|split]; intros data.
  - unfold BucketResource_Delete, bind, ret.
    pose proof (DeleteBucket_log c
                  {| db_ID := types.ValueString (b_ID data) |} n) as HL.
    destruct (DeleteBucket c _ n) as [[[] | e] n1]; cbn [fst snd] in *;
      split; (exact HL || reflexivity).
  - unfold KeyResource_Delete, bind, ret.
    pose proof (DeleteKey_log c
                  {| dk_ID := types.ValueString (k_ID data) |} n) as HL.
    destruct (DeleteKey c _ n) as [[[] | e] n1]; cbn [fst snd] in *;
      split; (exact HL || reflexivity).
  - unfold BucketPermissionResource_Delete, bind, ret, spec.flags.
    match goal with
    | |- context [DenyBucketKey c ?r n] =>
        pose proof (DenyBucketKey_log c r n) as HL;
        destruct (DenyBucketKey c r n) as [[b | e] n1]
    end;
      cbn [fst snd] in *; split; (exact HL || reflexivity).
Qed.

(** X12.  A [Delete] whose call is answered with a status it does not
    accept raises one "Client Error" with the status and the body in its
    detail.  This includes 404: deleting what is already gone on the
    server is an error, for a bucket, a key and a bucket permission. *)
Theorem Delete_of_missing_is_error (c : Client) (n n' : Net)
    (resp : HttpResponse) :
  StatusCode resp <> 200%Z ->
  (forall data,
     StatusCode resp <> 204%Z ->
     round_trip c
       (DeleteBucketC {| db_ID := types.ValueString (b_ID data) |}) n
     = (Ok resp, n') ->
     exists d,
       BucketResource_Delete c data n = (mkResponse [d] Untouched, n')
       /\ Summary d = "Client Error"
       /\ strings.Contains (Detail d) (fmt_d (StatusCode resp)) = true
       /\ strings.Contains (Detail d) (RespBody resp) = true)
  /\ (forall data,
        StatusCode resp <> 204%Z ->
        round_trip c
          (DeleteKeyC {| dk_ID := types.ValueString (k_ID data) |}) n
        = (Ok resp, n') ->
        exists d,
          KeyResource_Delete c data n = (mkResponse [d] Untouched, n')
          /\ Summary d = "Client Error"
          /\ strings.Contains (Detail d) (fmt_d (StatusCode resp)) = true
          /\ strings.Contains (Detail d) (RespBody resp) = true)
  /\ (forall data,
        round_trip c
          (DenyBucketKeyC
             {| BucketID := types.ValueString (bp_BucketID data);
                AccessKeyID := types.ValueString (bp_AccessKeyID data);
                Permissions_ := spec.flags data |}) n
        = (Ok resp, n') ->
        exists d,
          BucketPermissionResource_Delete c data n
          = (mkResponse [d] Untouched, n')
          /\ Summary d = "Client Error"
          /\ strings.Contains (Detail d) (fmt_d (StatusCode resp)) = true
          /\ strings.Contains (Detail d) (RespBody resp) = true).
Proof.
  intros H200. apply Z.eqb_neq in H200.
  split; [|split].
  - intros data H204 Hrt. apply Z.eqb_neq in H204. eexists.
    assert (E : DeleteBucket c {| db_ID := types.ValueString (b_ID data) |} n
                = (Err (apiError resp), n')).
    { apply call_error_Err.
      apply (call_error_unaccepted c (DeleteBucketC _) n n' resp Hrt);
        [cbn; now rewrite H200, H204 | discriminate]. }
    unfold BucketResource_Delete. rewrite (bind_eq _ _ _ _ _ E).
    split; [reflexivity|]. split; [reflexivity|].
    apply detail_has_api_error.
  - intros data H204 Hrt. apply Z.eqb_neq in H204. eexists.
    assert (E : DeleteKey c {| dk_ID := types.ValueString (k_ID data) |} n
                = (Err (apiError resp), n')).
    { apply call_error_Err.
      apply (call_error_unaccepted c (DeleteKeyC _) n n' resp Hrt);
        [cbn; now rewrite H200, H204 | discriminate]. }
    unfold KeyResource_Delete. rewrite (bind_eq _ _ _ _ _ E).
    split; [reflexivity|]. split; [reflexivity|].
    apply detail_has_api_error.
  - intros data Hrt. eexists.
    assert (E : DenyBucketKey c
                  {| BucketID := types.ValueString (bp_BucketID data);
                     AccessKeyID := types.ValueString (bp_AccessKeyID data);
                     Permissions_ := spec.flags data |} n
                = (Err (apiError resp), n')).
    { apply call_error_Err.
      apply (call_error_unaccepted c (DenyBucketKeyC _) n n' resp Hrt);
        [cbn; exact H200 | discriminate]. }
    unfold BucketPermissionResource_Delete. unfold spec.flags in E.
    rewrite (bind_eq _ _ _ _ _ E).
    split; [reflexivity|]. split; [reflexivity|].
    apply detail_has_api_error.
Qed.

End DeleteFacts.

Section BucketWriteFacts.

Import client provider.

Context {W : World}.

Lemma Create_needsUpdate_iff (data : BucketResourceModel) :
  Create_needsUpdate data
  = negb (types.IsNull (b_WebsiteEnabled data)
          && types.IsNull (b_WebsiteIndex data)
          && types.IsNull (b_WebsiteError data)
          && types.IsNull (b_MaxSize data)
          && types.IsNull (b_MaxObjects data)).
Proof.
  unfold Create_needsUpdate.
  destruct (types.IsNull (b_WebsiteEnabled data)),
    (types.IsNull (b_WebsiteIndex data)),
    (types.IsNull (b_WebsiteError data)),
    (types.IsNull (b_MaxSize data)),
    (types.IsNull (b_MaxObjects data)); reflexivity.
Qed.

(** X13.  [Create] of a bucket first sends [CreateBucket] with the planned
    alias.  It sends nothing more if that call fails or if all five
    optional attributes are null; otherwise it sends exactly one
    [UpdateBucket], addressed to the id the server gave the new bucket. *)
Theorem BucketResource_Create_calls (c : Client)
    (data : BucketResourceModel) (n : Net) :
  let req := {| cb_GlobalAlias := Some (types.ValueString (b_GlobalAlias data));
                cb_LocalAlias := None |} in
  let all_null :=
    types.IsNull (b_WebsiteEnabled data)
    && types.IsNull (b_WebsiteIndex data)
    && types.IsNull (b_WebsiteError data)
    && types.IsNull (b_MaxSize data)
    && types.IsNull (b_MaxObjects data) in
  exists calls,
    log (snd (BucketResource_Create c data n))
    = (log n ++ wire (CreateBucketC req) :: calls)%list
    /\ (is_err (fst (CreateBucket c req n)) = true -> calls = [])
    /\ (all_null = true -> calls = [])
    /\ (forall bucket n1,
          CreateBucket c req n = (Ok bucket, n1) ->
          all_null = false ->
          calls = [wire (UpdateBucketC (ID bucket) (Create_updateReq data))]).
Proof.
  intros req all_null.
  unfold BucketResource_Create, bind, ret. fold req.
  pose proof (CreateBucket_log c req n) as HC.
  rewrite Create_needsUpdate_iff. fold all_null.
  destruct (CreateBucket c req n) as [[b | e] n1]; cbn [fst snd is_err] in *.
  - destruct all_null; cbn [negb].
    + exists []. cbn [snd]. repeat split; try discriminate; exact HC.
    + pose proof (UpdateBucket_log c (ID b) (Create_updateReq data) n1) as HU.
      destruct (UpdateBucket c (ID b) (Create_updateReq data) n1)
        as [[b' | e] n2]; cbn [fst snd] in *;
        (exists [wire (UpdateBucketC (ID b) (Create_updateReq data))];
         split; [rewrite HU, HC, <- app_assoc; reflexivity|];
         split; [discriminate|]; split; [discriminate|];
         intros b0 n0 E _; now injection E as <- _).
  - exists []. cbn [snd]. repeat split; try discriminate; exact HC.
Qed.

(** X14.  When [CreateBucket] has succeeded and the [UpdateBucket] that
    follows fails, [Create] raises the error and sets no state: the bucket
    exists on the server and its id is not recorded.  When the update
    succeeds, or is not needed, the state is the plan with the id the
    server gave; nothing else is read back. *)
Theorem BucketResource_Create_outcome (c : Client)
    (data : BucketResourceModel) (n n1 : Net) (bucket : Bucket) :
  CreateBucket c
    {| cb_GlobalAlias := Some (types.ValueString (b_GlobalAlias data));
       cb_LocalAlias := None |} n
  = (Ok bucket, n1) ->
  let created :=
    {| b_ID := types.Value (ID bucket);
       b_GlobalAlias := b_GlobalAlias data;
       b_WebsiteEnabled := b_WebsiteEnabled data;
       b_WebsiteIndex := b_WebsiteIndex data;
       b_WebsiteError := b_WebsiteError data;
       b_MaxSize := b_MaxSize data;
       b_MaxObjects := b_MaxObjects data |} in
  (Create_needsUpdate data = false ->
   BucketResource_Create c data n = (mkResponse [] (StateSet created), n1))
  /\ (forall updated n2,
        Create_needsUpdate data = true ->
        UpdateBucket c (ID bucket) (Create_updateReq data) n1
        = (Ok updated, n2) ->
        BucketResource_Create c data n
        = (mkResponse [] (StateSet created), n2))
  /\ (forall e n2,
        Create_needsUpdate data = true ->
        UpdateBucket c (ID bucket) (Create_updateReq data) n1 = (Err e, n2) ->
        BucketResource_Create c data n
        = (mkResponse
             [mkDiagnostic "Client Error"
                ("Unable to update bucket, got error: " ++ e)]
             Untouched, n2)
        /\ In (wire (CreateBucketC
                       {| cb_GlobalAlias :=
                            Some (types.ValueString (b_GlobalAlias data));
                          cb_LocalAlias := None |}))
              (log n2)).
Proof.
  intros HC created.
  pose proof (CreateBucket_log c
                {| cb_GlobalAlias :=
                     Some (types.ValueString (b_GlobalAlias data));
                   cb_LocalAlias := None |} n) as HL.
  rewrite HC in HL.
  cbn [snd] in HL.
  unfold BucketResource_Create. rewrite (bind_eq _ _ _ _ _ HC).
  split; [|split].
  - intros ->. reflexivity.
  - intros updated n2 -> HU. now rewrite (bind_eq _ _ _ _ _ HU).
  - intros e n2 -> HU. rewrite (bind_eq _ _ _ _ _ HU).
    split; [reflexivity|].
    pose proof (UpdateBucket_log c (ID bucket) (Create_updateReq data) n1)
      as HL2.
    rewrite HU in HL2. cbn [snd] in HL2. rewrite HL2, HL.
    apply in_or_app. left. apply in_or_app. right. now left.
Qed.

(** X15.  [Update] of a bucket makes exactly one [UpdateBucket] call, to the
    id of the plan, and its request always carries a website block and a
    quotas block: a quota that is null in the plan is sent as an absent
    field of a present block, a known one as its value.  The state becomes
    the plan exactly when the call succeeds. *)
Theorem BucketResource_Update_request (c : Client)
    (data : BucketResourceModel) (n : Net) :
  exists website quotas,
    log (snd (BucketResource_Update c data n))
    = (log n
       ++ [wire (UpdateBucketC (types.ValueString (b_ID data))
                   {| ub_WebsiteAccess := Some website;
                      ub_Quotas := Some quotas |})])%list
    /\ wa_Enabled website = types.ValueBool (b_WebsiteEnabled data)
    /\ (b_MaxSize data = types.Null -> MaxSize quotas = None)
    /\ (forall v, b_MaxSize data = types.Value v -> MaxSize quotas = Some v)
    /\ (b_MaxObjects data = types.Null -> MaxObjects quotas = None)
    /\ (forall v, b_MaxObjects data = types.Value v ->
                  MaxObjects quotas = Some v)
    /\ (is_err (fst (UpdateBucket c (types.ValueString (b_ID data))
                       (Update_updateReq data) n)) = false ->
        fst (BucketResource_Update c data n) = mkResponse [] (StateSet data))
    /\ (is_err (fst (UpdateBucket c (types.ValueString (b_ID data))
                       (Update_updateReq data) n)) = true ->
        State (fst (BucketResource_Update c data n)) = Untouched
        /\ HasError (fst (BucketResource_Update c data n)) = true).
Proof.
  do 2 eexists.
  unfold BucketResource_Update, bind, ret.
  pose proof (UpdateBucket_log c (types.ValueString (b_ID data))
                (Update_updateReq data) n) as HL.
  destruct (UpdateBucket c (types.ValueString (b_ID data))
              (Update_updateReq data) n) as [[b | e] n1];
    cbn [fst snd is_err] in *;
    (split; [exact HL|]);
    (split; [reflexivity|]);
    (split; [now intros ->|]);
    (split; [now intros v ->|]);
    (split; [now intros ->|]);
    (split; [now intros v ->|]);
    split; intros; try discriminate; repeat split.
Qed.

End BucketWriteFacts.

Section PermissionKeyFacts.

Import client provider.

Context {W : World}.

(** X16.  [Create] of a bucket permission makes exactly one
    [AllowBucketKey] call, which carries the three planned flags as they
    are (also when all are false).  The id it stores is
    [bucket_id/access_key_id], and as long as the bucket id holds no slash
    that id imports back to the same [bucket_id] and [access_key_id]. *)
Theorem Create_id_imports_back (c : Client)
    (data : BucketPermissionResourceModel) (n : Net) :
  let bucket := types.ValueString (bp_BucketID data) in
  let key := types.ValueString (bp_AccessKeyID data) in
  log (snd (BucketPermissionResource_Create c data n))
  = (log n
     ++ [wire (AllowBucketKeyC
                 {| BucketID := bucket; AccessKeyID := key;
                    Permissions_ := spec.flags data |})])%list
  /\ (forall st n',
        BucketPermissionResource_Create c data n
        = (mkResponse [] (StateSet st), n') ->
        bp_ID st = types.Value (bucket ++ "/" ++ key)
        /\ (strings.Contains bucket "/" = false ->
            BucketPermissionResource_ImportState (bucket ++ "/" ++ key)
            = mkResponse []
                (StateSet {| bp_ID := bp_ID st;
                             bp_BucketID := types.Value bucket;
                             bp_AccessKeyID := types.Value key;
                             bp_Read := types.Null;
                             bp_Write := types.Null;
                             bp_Owner := types.Null |}))).
Proof.
  intros bucket key.
  unfold BucketPermissionResource_Create, bind, ret, spec.flags.
  fold bucket key.
  match goal with
  | |- context [AllowBucketKey c ?r n] =>
      pose proof (AllowBucketKey_log c r n) as HL;
      destruct (AllowBucketKey c r n) as [[b | e] n1]
  end; cbn [fst snd] in *; (split; [exact HL|]);
    intros st n' E; [|discriminate].
  injection E as <- _.
  match goal with
  | |- context [updateStateFromBucket ?d b] =>
      destruct (updateStateFromBucket_spec d b) as (_ & Hid & _ & _)
  end.
  rewrite Hid. cbn [bp_ID]. split; [reflexivity|].
  intros Hno. unfold BucketPermissionResource_ImportState.
  now rewrite (parseImportID_split bucket key Hno).
Qed.

(** X17.  The secret the server returns when a key is created is stored and
    survives the next refresh, which leaves it as it is.  When the answer
    to [CreateKey] carries no secret, the state keeps what the plan held
    for it. *)
Theorem secret_survives_refresh (c : Client) (data : KeyResourceModel)
    (n n1 : Net) (key : AccessKey) :
  CreateKey c (Create_createReq data) n = (Ok key, n1) ->
  exists st,
    KeyResource_Create c data n = (mkResponse [] (StateSet st), n1)
    /\ k_ID st = types.Value (ak_AccessKeyID key)
    /\ (ak_SecretAccessKey key = None ->
        k_SecretAccessKey st = k_SecretAccessKey data)
    /\ (forall secret key' n2,
          ak_SecretAccessKey key = Some secret ->
          GetKeyInfo c {| gk_ID := ak_AccessKeyID key |} n1
          = (Ok (Some key'), n2) ->
          k_SecretAccessKey st = types.Value secret
          /\ exists st',
               KeyResource_Read c st n1 = (mkResponse [] (StateSet st'), n2)
               /\ k_SecretAccessKey st' = types.Value secret).
Proof.
  intros HC. unfold KeyResource_Create. rewrite (bind_eq _ _ _ _ _ HC).
  eexists. split; [reflexivity|]. cbn [k_ID k_SecretAccessKey].
  split; [reflexivity|]. split.
  - now intros ->.
  - intros secret key' n2 -> HG. split; [reflexivity|].
    unfold KeyResource_Read. cbn [k_ID types.ValueString types.StringValue].
    rewrite (bind_eq _ _ _ _ _ HG). eexists. split; reflexivity.
Qed.

Lemma Update_grant_condition (data state : BucketPermissionResourceModel) :
  (negb (Bool.eqb (types.ValueBool (bp_Read data))
           (types.ValueBool (bp_Read state)))
   && types.ValueBool (bp_Read data))
  || (negb (Bool.eqb (types.ValueBool (bp_Write data))
              (types.ValueBool (bp_Write state)))
      && types.ValueBool (bp_Write data))
  || (negb (Bool.eqb (types.ValueBool (bp_Owner data))
              (types.ValueBool (bp_Owner state)))
      && types.ValueBool (bp_Owner data))
  = spec.any (spec.flags_turning_on (spec.flags state) (spec.flags data)).
Proof.
  unfold spec.any, spec.flags_turning_on, spec.turning_on, spec.flags; cbn.
  destruct (types.ValueBool (bp_Read data)), (types.ValueBool (bp_Read state)),
    (types.ValueBool (bp_Write data)), (types.ValueBool (bp_Write state)),
    (types.ValueBool (bp_Owner data)), (types.ValueBool (bp_Owner state));
    reflexivity.
Qed.

Lemma Update_revoke_condition (data state : BucketPermissionResourceModel) :
  (negb (Bool.eqb (types.ValueBool (bp_Read data))
           (types.ValueBool (bp_Read state)))
   && negb (types.ValueBool (bp_Read data)))
  || (negb (Bool.eqb (types.ValueBool (bp_Write data))
              (types.ValueBool (bp_Write state)))
      && negb (types.ValueBool (bp_Write data)))
  || (negb (Bool.eqb (types.ValueBool (bp_Owner data))
              (types.ValueBool (bp_Owner state)))
      && negb (types.ValueBool (bp_Owner data)))
  = spec.any (spec.flags_turning_off (spec.flags state) (spec.flags data)).
Proof.
  unfold spec.any, spec.flags_turning_off, spec.turning_off, spec.flags; cbn.
  destruct (types.ValueBool (bp_Read data)), (types.ValueBool (bp_Read state)),
    (types.ValueBool (bp_Write data)), (types.ValueBool (bp_Write state)),
    (types.ValueBool (bp_Owner data)), (types.ValueBool (bp_Owner state));
    reflexivity.
Qed.

(** X18.  Partial failure of a bucket-permission [Update] in which some flag
    turns on.  If the grant call fails, that is the only call made, the
    error is raised as "Unable to grant bucket permissions ..." and the
    state is left alone.  If the grant succeeds, some flag turns off and
    the revoke call fails, then the grant and the revoke were sent in this
    order, the error is raised as "Unable to revoke bucket permissions ..."
    and the state is left alone although the grant has taken effect on the
    server. *)
Theorem Update_partial_failure (c : Client)
    (data state : BucketPermissionResourceModel) (n : Net) :
  spec.any (spec.flags_turning_on (spec.flags state) (spec.flags data))
  = true ->
  (forall e n1,
     AllowBucketKey c (Update_allowReq data state) n = (Err e, n1) ->
     BucketPermissionResource_Update c data state n
     = (mkResponse
          [mkDiagnostic "Client Error"
             ("Unable to grant bucket permissions, got error: " ++ e)]
          Untouched, n1)
     /\ log n1 = (log n ++ [wire (spec.grant_call data state)])%list)
  /\ (forall granted n1 e n2,
        AllowBucketKey c (Update_allowReq data state) n = (Ok granted, n1) ->
        spec.any (spec.flags_turning_off (spec.flags state) (spec.flags data))
        = true ->
        DenyBucketKey c (Update_denyReq data state) n1 = (Err e, n2) ->
        BucketPermissionResource_Update c data state n
        = (mkResponse
             [mkDiagnostic "Client Error"
                ("Unable to revoke bucket permissions, got error: " ++ e)]
             Untouched, n2)
        /\ log n2
           = (log n ++ [wire (spec.grant_call data state);
                        wire (spec.revoke_call data state)])%list).
Proof.
  intros Hon. split.
  - intros e n1 HA.
    pose proof (AllowBucketKey_log c (Update_allowReq data state) n) as HL.
    rewrite HA in HL. cbn [snd] in HL.
    rewrite Update_allowReq_spec in HL. split; [|exact HL].
    unfold BucketPermissionResource_Update. cbv zeta.
    rewrite Update_grant_condition, Hon.
    unfold bind at 1. unfold bind at 1. rewrite HA. reflexivity.
  - intros granted n1 e n2 HA Hoff HD.
    pose proof (AllowBucketKey_log c (Update_allowReq data state) n) as HL.
    rewrite HA in HL. cbn [snd] in HL.
    pose proof (DenyBucketKey_log c (Update_denyReq data state) n1) as HL2.
    rewrite HD in HL2. cbn [snd] in HL2.
    rewrite Update_allowReq_spec in HL. rewrite Update_denyReq_spec in HL2.
    split; [|rewrite HL2, HL, <- app_assoc; reflexivity].
    unfold BucketPermissionResource_Update. cbv zeta.
    rewrite Update_grant_condition, Hon, Update_revoke_condition, Hoff.
    unfold bind at 1. unfold bind at 1. rewrite HA. unfold ret at 1.
    unfold bind at 1. unfold bind at 1. rewrite HD. reflexivity.
Qed.

(** X19.  Import followed by refresh: the state that [ImportState] sets for
    [bucket_id/access_key_id] (the bucket id without a slash) is completed
    by [Read] from the key list of that bucket.  The permission stays in
    the state as long as the bucket exists; with no row for the key its
    three flags are false. *)
Theorem import_then_Read (c : Client) (bucketID accessKeyID : string)
    (n n' : Net) (bucket : Bucket) :
  strings.Contains bucketID "/" = false ->
  GetBucketInfo c {| gb_ID := Some bucketID; gb_GlobalAlias := None |} n
  = (Ok (Some bucket), n') ->
  exists st st',
    BucketPermissionResource_ImportState (bucketID ++ "/" ++ accessKeyID)
    = mkResponse [] (StateSet st)
    /\ BucketPermissionResource_Read c st n
       = (mkResponse [] (StateSet st'), n')
    /\ spec.flags_from_key_list bucket st'
    /\ bp_ID st' = types.Value (bucketID ++ "/" ++ accessKeyID)
    /\ bp_BucketID st' = types.Value bucketID
    /\ bp_AccessKeyID st' = types.Value accessKeyID.
Proof.
  intros Hno HG. unfold BucketPermissionResource_ImportState.
  rewrite (parseImportID_split bucketID accessKeyID Hno). cbn [negb].
  eexists. eexists. split; [reflexivity|].
  unfold BucketPermissionResource_Read.
  cbn [bp_BucketID types.ValueString types.StringValue].
  rewrite (bind_eq _ _ _ _ _ HG). split; [reflexivity|].
  match goal with
  | |- context [updateStateFromBucket ?d bucket] =>
      destruct (updateStateFromBucket_spec d bucket) as (Hf & Hi & Hb & Hk)
  end.
  split; [exact Hf|]. split; [exact Hi|]. split; [exact Hb | exact Hk].
Qed.

(** X20.  In every [Create], [Read] and [Update] of the three resources,
    and in the import of a bucket permission, the state follows the
    diagnostics: a response with an error leaves the state alone, and a
    response without one sets the state or removes the resource. *)
Theorem state_follows_diagnostics_everywhere (c : Client) (n : Net) :
  (forall d, spec.state_follows_diagnostics
               (fst (BucketResource_Create c d n)))
  /\ (forall d, spec.state_follows_diagnostics
                  (fst (BucketResource_Read c d n)))
  /\ (forall d, spec.state_follows_diagnostics
                  (fst (BucketResource_Update c d n)))
  /\ (forall d, spec.state_follows_diagnostics
                  (fst (KeyResource_Create c d n)))
  /\ (forall d, spec.state_follows_diagnostics
                  (fst (KeyResource_Read c d n)))
  /\ (forall d, spec.state_follows_diagnostics
                  (fst (KeyResource_Update c d n)))
  /\ (forall d, spec.state_follows_diagnostics
                  (fst (BucketPermissionResource_Create c d n)))
  /\ (forall d, spec.state_follows_diagnostics
                  (fst (BucketPermissionResource_Read c d n)))
  /\ (forall d s, spec.state_follows_diagnostics
                    (fst (BucketPermissionResource_Update c d s n)))
  /\ (forall id, spec.state_follows_diagnostics
                   (BucketPermissionResource_ImportState id)).
Proof.
  repeat match goal with |- _ /\ _ => split end; intros;
    unfold BucketResource_Create, BucketResource_Read, BucketResource_Update,
      KeyResource_Create, KeyResource_Read, KeyResource_Update,
      BucketPermissionResource_Create, BucketPermissionResource_Read,
      BucketPermissionResource_Update, BucketPermissionResource_ImportState,
      bind, ret, spec.state_follows_diagnostics;
    repeat match goal with
           | |- context [let (_, _) := ?x in _] => destruct x
           | |- context [match ?x with Ok _ => _ | Err _ => _ end] =>
               destruct x
           | |- context [match ?x with Some _ => _ | None => _ end] =>
               destruct x
           | |- context [if ?x then _ else _] => destruct x
           end;
    cbn; split; intros; congruence.
Qed.

Lemma nothing_turns (p : Permissions) :
  spec.any (spec.flags_turning_on p p) = false
  /\ spec.any (spec.flags_turning_off p p) = false.
Proof. destruct p as [[] [] []]; split; reflexivity. Qed.

(** X21.  A bucket-permission [Update] in which no flag changes does not
    contact the server: the network is as before and the state is the plan
    as given, so the flags are not refreshed from the server. *)
Theorem Update_without_change_is_local (c : Client)
    (data state : BucketPermissionResourceModel) (n : Net) :
  spec.flags state = spec.flags data ->
  BucketPermissionResource_Update c data state n
  = (mkResponse [] (StateSet data), n).
Proof.
  intros E. unfold BucketPermissionResource_Update. cbv zeta.
  rewrite Update_grant_condition, Update_revoke_condition, E.
  destruct (nothing_turns (spec.flags data)) as [-> ->].
  reflexivity.
Qed.

End PermissionKeyFacts.

Section FurtherWitnesses.

Import client provider.

(** [ListBuckets] against a server that refuses the connection. *)
Lemma transport_failure_is_returned_witness :
  @call_error httptest.scripted httptest.testClient ListBucketsC
    (httptest.NewServer [])
  = (Some "failed to execute request: connection refused",
     @mkNet httptest.scripted [] [wire ListBucketsC]).
Proof.
  exact (proj1 (@transport_failure_is_returned httptest.scripted
                  httptest.testClient ListBucketsC (httptest.NewServer [])
                  _ _ eq_refl)).
Defined.

(** An endpoint with a space in it: the scripted answer is never consumed. *)
Lemma unbuildable_request_stays_local_witness :
  @call_error httptest.strict (NewClient "http://local host" "t")
    ListBucketsC (@mkNet httptest.strict [httptest.ok_b1] [])
  = (Some "failed to create request: invalid character in URL",
     @mkNet httptest.strict [httptest.ok_b1] [wire ListBucketsC]).
Proof.
  exact (@unbuildable_request_stays_local httptest.strict
           (NewClient "http://local host" "t") ListBucketsC
           (@mkNet httptest.strict [httptest.ok_b1] [])
           "invalid character in URL" eq_refl).
Defined.

(** [DeleteBucket] of a bucket the server does not know. *)
Lemma unaccepted_status_is_api_error_witness :
  @call_error httptest.scripted httptest.testClient
    (DeleteBucketC {| db_ID := "b1" |}) (httptest.NewServer [httptest.gone])
  = (Some "API request failed with status 404: Not found",
     @mkNet httptest.scripted []
       [wire (DeleteBucketC {| db_ID := "b1" |})]).
Proof.
  refine (proj1 (@unaccepted_status_is_api_error httptest.scripted
                   httptest.testClient (DeleteBucketC {| db_ID := "b1" |})
                   (httptest.NewServer [httptest.gone]) _
                   (mkHttpResponse 404 "Not found") eq_refl eq_refl _)).
  discriminate.
Defined.

(** [DeleteKey] answered with 204 and no body. *)
Lemma accepted_status_leaves_decoding_witness :
  @call_error httptest.scripted httptest.testClient
    (DeleteKeyC {| dk_ID := "GK1" |})
    (httptest.NewServer [httptest.no_content])
  = (None,
     @mkNet httptest.scripted [] [wire (DeleteKeyC {| dk_ID := "GK1" |})]).
Proof.
  exact (proj2 (@accepted_status_leaves_decoding httptest.scripted
                  httptest.testClient (DeleteKeyC {| dk_ID := "GK1" |})
                  (httptest.NewServer [httptest.no_content]) _
                  (mkHttpResponse 204 EmptyString) eq_refl eq_refl)
           eq_refl).
Defined.

(** [TestGetBucketInfo_byID]. *)
Lemma lookup_200_is_found_witness :
  @GetBucketInfo httptest.scripted httptest.testClient
    {| gb_ID := Some "b1"; gb_GlobalAlias := None |}
    (httptest.NewServer [httptest.ok_b1])
  = (Ok (Some httptest.bucket_b1),
     @mkNet httptest.scripted []
       [mkSent "GET" "/v2/GetBucketInfo?id=b1" None]).
Proof.
  exact (proj1 (@lookup_200_is_found httptest.scripted httptest.testClient
                  (httptest.NewServer [httptest.ok_b1]) _
                  (mkHttpResponse 200 "{bucket b1}") eq_refl)
           _ _ eq_refl eq_refl).
Defined.

(** The refresh of a bucket that was deleted behind Terraform's back. *)
Lemma Read_of_missing_removes_resource_witness :
  @BucketResource_Read httptest.scripted httptest.testClient
    httptest.bucket_created (httptest.NewServer [httptest.gone])
  = (mkResponse [] RemoveResource,
     @mkNet httptest.scripted []
       [mkSent "GET" "/v2/GetBucketInfo?id=b1" None]).
Proof.
  exact (proj1 (@Read_of_missing_removes_resource httptest.scripted
                  httptest.testClient
                  (httptest.NewServer [httptest.gone]) _
                  (mkHttpResponse 404 "Not found") eq_refl)
           httptest.bucket_created eq_refl).
Defined.

(** The refresh of a key against a server that answers 500. *)
Lemma Read_failure_keeps_state_witness :
  exists d,
    @KeyResource_Read httptest.scripted httptest.testClient
      httptest.key_in_state (httptest.NewServer [httptest.internal_error])
    = (mkResponse [d] Untouched,
       @mkNet httptest.scripted []
         [mkSent "GET" "/v2/GetKeyInfo?id=GK0123456789abcdef01234567" None])
    /\ strings.Contains (Detail d) "500" = true.
Proof.
  destruct (@Read_failure_keeps_state httptest.scripted httptest.testClient
              (httptest.NewServer [httptest.internal_error])
              (@mkNet httptest.scripted []
                 [mkSent "GET"
                    "/v2/GetKeyInfo?id=GK0123456789abcdef01234567" None])
              (mkHttpResponse 500 "Internal server error"))
    as (_ & HK & _); [discriminate | discriminate |].
  destruct (HK httptest.key_in_state eq_refl) as (d & E & _ & Hs & _).
  exists d. split; [exact E | exact Hs].
Defined.

(** Two refreshes of a bucket, both answered with bucket [b1]. *)
Lemma Read_twice_is_Read_once_witness :
  exists st1 n1 n2,
    @BucketResource_Read httptest.scripted httptest.testClient
      httptest.bucket_created
      (httptest.NewServer [httptest.ok_b1; httptest.ok_b1])
    = (mkResponse [] (StateSet st1), n1)
    /\ @BucketResource_Read httptest.scripted httptest.testClient st1 n1
       = (mkResponse [] (StateSet st1), n2).
Proof.
  destruct (@Read_twice_is_Read_once httptest.scripted httptest.testClient
              (httptest.NewServer [httptest.ok_b1; httptest.ok_b1])
              (@mkNet httptest.scripted [httptest.ok_b1]
                 [mkSent "GET" "/v2/GetBucketInfo?id=b1" None])
              (@mkNet httptest.scripted []
                 [mkSent "GET" "/v2/GetBucketInfo?id=b1" None;
                  mkSent "GET" "/v2/GetBucketInfo?id=b1" None]))
    as (HB & _).
  destruct (HB httptest.bucket_created httptest.bucket_b1 eq_refl eq_refl)
    as (st1 & E1 & E2).
  exists st1. do 2 eexists. split; [exact E1 | exact E2].
Defined.

(** The [Delete] of a key the server does not know. *)
Lemma Delete_of_missing_is_error_witness :
  exists d,
    fst (@KeyResource_Delete httptest.scripted httptest.testClient
           httptest.key_in_state (httptest.NewServer [httptest.gone]))
    = mkResponse [d] Untouched
    /\ strings.Contains (Detail d) "404" = true.
Proof.
  destruct (@Delete_of_missing_is_error httptest.scripted httptest.testClient
              (httptest.NewServer [httptest.gone])
              (@mkNet httptest.scripted []
                 [mkSent "POST"
                    "/v2/DeleteKey?id=GK0123456789abcdef01234567" None])
              (mkHttpResponse 404 "Not found"))
    as (_ & HK & _); [discriminate|].
  destruct (HK httptest.key_in_state) as (d & E & _ & Hs & _);
    [discriminate | reflexivity |].
  exists d. rewrite E. split; [reflexivity | exact Hs].
Defined.

(** The plan with [max_size] set: [CreateBucket], then [UpdateBucket] to
    the id [b1] of the answer. *)
Lemma BucketResource_Create_calls_witness :
  log (snd (@BucketResource_Create httptest.scripted httptest.testClient
              (httptest.bucket_plan (types.Value 1073741824%Z))
              (httptest.NewServer [httptest.ok_b1; httptest.ok_b1])))
  = [wire (CreateBucketC {| cb_GlobalAlias := Some "my-bucket";
                            cb_LocalAlias := None |});
     wire (UpdateBucketC "b1"
             (Create_updateReq
                (httptest.bucket_plan (types.Value 1073741824%Z))))].
Proof.
  destruct (@BucketResource_Create_calls httptest.scripted
              httptest.testClient
              (httptest.bucket_plan (types.Value 1073741824%Z))
              (httptest.NewServer [httptest.ok_b1; httptest.ok_b1]))
    as (calls & Hlog & _ & _ & Hupd).
  rewrite Hlog.
  now rewrite (Hupd httptest.bucket_b1
                 (@mkNet httptest.scripted [httptest.ok_b1]
                    [wire (CreateBucketC {| cb_GlobalAlias := Some "my-bucket";
                                            cb_LocalAlias := None |})])
                 eq_refl eq_refl).
Defined.

(** The bucket is created and the update is answered with 500. *)
Lemma BucketResource_Create_outcome_witness :
  exists d,
    fst (@BucketResource_Create httptest.scripted httptest.testClient
           (httptest.bucket_plan (types.Value 1073741824%Z))
           (httptest.NewServer [httptest.ok_b1; httptest.internal_error]))
    = mkResponse [d] Untouched.
Proof.
  destruct (@BucketResource_Create_outcome httptest.scripted
              httptest.testClient
              (httptest.bucket_plan (types.Value 1073741824%Z))
              (httptest.NewServer [httptest.ok_b1; httptest.internal_error])
              (@mkNet httptest.scripted [httptest.internal_error]
                 [wire (CreateBucketC {| cb_GlobalAlias := Some "my-bucket";
                                         cb_LocalAlias := None |})])
              httptest.bucket_b1 eq_refl)
    as (_ & _ & Hfail).
  destruct (Hfail
              "API request failed with status 500: Internal server error"
              (snd (@BucketResource_Create httptest.scripted
                      httptest.testClient
                      (httptest.bucket_plan (types.Value 1073741824%Z))
                      (httptest.NewServer
                         [httptest.ok_b1; httptest.internal_error])))
              eq_refl eq_refl) as (E & _).
  eexists. rewrite E. reflexivity.
Defined.

(** Removing [max_size] from the configuration of bucket [b1]. *)
Lemma BucketResource_Update_request_witness :
  exists website,
    log (snd (@BucketResource_Update httptest.scripted httptest.testClient
                {| b_ID := types.Value "b1";
                   b_GlobalAlias := types.Value "my-bucket";
                   b_WebsiteEnabled := types.Value false;
                   b_WebsiteIndex := types.Null;
                   b_WebsiteError := types.Null;
                   b_MaxSize := types.Null;
                   b_MaxObjects := types.Null |}
                (httptest.NewServer [httptest.ok_b2])))
    = [wire (UpdateBucketC "b1"
               {| ub_WebsiteAccess := Some website;
                  ub_Quotas := Some (mkBucketQuotas None None) |})].
Proof.
  destruct (@BucketResource_Update_request httptest.scripted
              httptest.testClient
              {| b_ID := types.Value "b1";
                 b_GlobalAlias := types.Value "my-bucket";
                 b_WebsiteEnabled := types.Value false;
                 b_WebsiteIndex := types.Null;
                 b_WebsiteError := types.Null;
                 b_MaxSize := types.Null;
                 b_MaxObjects := types.Null |}
              (httptest.NewServer [httptest.ok_b2]))
    as (website & [qs qo] & Hlog & _ & Hs & _ & Ho & _).
  cbn in Hs, Ho. rewrite (Hs eq_refl), (Ho eq_refl) in Hlog.
  exists website. exact Hlog.
Defined.

(** The permission of key [k1] on bucket [b1], created and imported. *)
Lemma Create_id_imports_back_witness :
  exists st,
    State (fst (@BucketPermissionResource_Create httptest.scripted
                  httptest.testClient (httptest.permission true true false)
                  (httptest.NewServer [httptest.ok_b1])))
    = StateSet st
    /\ bp_ID st = types.Value "b1/k1"
    /\ State (BucketPermissionResource_ImportState "b1/k1")
       = StateSet {| bp_ID := types.Value "b1/k1";
                     bp_BucketID := types.Value "b1";
                     bp_AccessKeyID := types.Value "k1";
                     bp_Read := types.Null;
                     bp_Write := types.Null;
                     bp_Owner := types.Null |}.
Proof.
  destruct (@Create_id_imports_back httptest.scripted httptest.testClient
              (httptest.permission true true false)
              (httptest.NewServer [httptest.ok_b1])) as (_ & H).
  destruct (H (updateStateFromBucket (httptest.permission true true false)
                 httptest.bucket_b1)
              (snd (@BucketPermissionResource_Create httptest.scripted
                      httptest.testClient
                      (httptest.permission true true false)
                      (httptest.NewServer [httptest.ok_b1])))
              eq_refl) as (Hid & Himp).
  eexists. split; [reflexivity|]. split; [exact Hid|].
  exact (f_equal State (Himp eq_refl)).
Defined.

(** A key is created, then refreshed. *)
Lemma secret_survives_refresh_witness :
  exists st st' n2,
    fst (@KeyResource_Create httptest.scripted httptest.testClient
           httptest.key_plan
           (httptest.NewServer [httptest.ok_key_new; httptest.ok_key_app]))
    = mkResponse [] (StateSet st)
    /\ @KeyResource_Read httptest.scripted httptest.testClient st
         (snd (@KeyResource_Create httptest.scripted httptest.testClient
                 httptest.key_plan
                 (httptest.NewServer
                    [httptest.ok_key_new; httptest.ok_key_app])))
       = (mkResponse [] (StateSet st'), n2)
    /\ k_SecretAccessKey st' = types.Value "generated-secret".
Proof.
  destruct (@secret_survives_refresh httptest.scripted httptest.testClient
              httptest.key_plan
              (httptest.NewServer [httptest.ok_key_new; httptest.ok_key_app])
              (snd (@KeyResource_Create httptest.scripted httptest.testClient
                      httptest.key_plan
                      (httptest.NewServer
                         [httptest.ok_key_new; httptest.ok_key_app])))
              httptest.key_new eq_refl)
    as (st & E & _ & _ & H).
  destruct (H "generated-secret" httptest.key_app
              (@mkNet httptest.scripted []
                 [wire (CreateKeyC (Create_createReq httptest.key_plan));
                  wire (GetKeyInfoC
                          {| gk_ID := "GKfedcba9876543210fedcba98" |})])
              eq_refl eq_refl)
    as (_ & st' & ER & Hs).
  exists st, st'. eexists. rewrite E. split; [reflexivity|].
  split; [exact ER | exact Hs].
Defined.

(** From (read) to (write): the grant is answered with bucket [b1], the
    revoke with status 500. *)
Lemma Update_partial_failure_witness :
  exists d,
    fst (@BucketPermissionResource_Update httptest.scripted
           httptest.testClient
           (httptest.permission false true false)
           (httptest.permission true false false)
           (httptest.NewServer [httptest.ok_b1; httptest.internal_error]))
    = mkResponse [d] Untouched
    /\ log (snd (@BucketPermissionResource_Update httptest.scripted
                   httptest.testClient
                   (httptest.permission false true false)
                   (httptest.permission true false false)
                   (httptest.NewServer
                      [httptest.ok_b1; httptest.internal_error])))
       = [wire (spec.grant_call (httptest.permission false true false)
                  (httptest.permission true false false));
          wire (spec.revoke_call (httptest.permission false true false)
                  (httptest.permission true false false))].
Proof.
  destruct (@Update_partial_failure httptest.scripted httptest.testClient
              (httptest.permission false true false)
              (httptest.permission true false false)
              (httptest.NewServer [httptest.ok_b1; httptest.internal_error])
              eq_refl) as (_ & H).
  destruct (H httptest.bucket_b1
              (@mkNet httptest.scripted [httptest.internal_error]
                 [wire (spec.grant_call (httptest.permission false true false)
                          (httptest.permission true false false))])
              "API request failed with status 500: Internal server error"
              (snd (@BucketPermissionResource_Update httptest.scripted
                      httptest.testClient
                      (httptest.permission false true false)
                      (httptest.permission true false false)
                      (httptest.NewServer
                         [httptest.ok_b1; httptest.internal_error])))
              eq_refl eq_refl eq_refl) as (E & Hlog).
  eexists. rewrite E. split; [reflexivity | exact Hlog].
Defined.

(** The import of ["b1/k1"], refreshed against bucket [b1]. *)
Lemma import_then_Read_witness :
  exists st st' n',
    BucketPermissionResource_ImportState "b1/k1"
    = mkResponse [] (StateSet st)
    /\ @BucketPermissionResource_Read httptest.scripted httptest.testClient
         st (httptest.NewServer [httptest.ok_b1])
       = (mkResponse [] (StateSet st'), n')
    /\ spec.flags st' = mkPermissions true true false.
Proof.
  destruct (@import_then_Read httptest.scripted httptest.testClient
              "b1" "k1" (httptest.NewServer [httptest.ok_b1])
              (@mkNet httptest.scripted []
                 [mkSent "GET" "/v2/GetBucketInfo?id=b1" None])
              httptest.bucket_b1 eq_refl eq_refl)
    as (st & st' & EI & ER & Hf & _ & _ & Hk).
  exists st, st'. eexists. split; [exact EI|]. split; [exact ER|].
  destruct Hf as [Hrow _]. rewrite Hk in Hrow.
  destruct (Hrow [mkBucketKeyInfo "k0" "other" (mkPermissions true true true)]
              (mkBucketKeyInfo "k1" "app" (mkPermissions true true false))
              [] eq_refl eq_refl) as (Hr & Hw & Ho).
  - intros r [<- | []]. discriminate.
  - unfold spec.flags. now rewrite Hr, Hw, Ho.
Defined.

(** An [Update] that changes nothing, with a plan whose [owner] is null. *)
Lemma Update_without_change_is_local_witness :
  @BucketPermissionResource_Update httptest.scripted httptest.testClient
    {| bp_ID := types.Value "b1/k1";
       bp_BucketID := types.Value "b1";
       bp_AccessKeyID := types.Value "k1";
       bp_Read := types.Value true;
       bp_Write := types.Value false;
       bp_Owner := types.Null |}
    (httptest.permission true false false)
    (httptest.NewServer [httptest.ok_b1])
  = (mkResponse []
       (StateSet {| bp_ID := types.Value "b1/k1";
                    bp_BucketID := types.Value "b1";
                    bp_AccessKeyID := types.Value "k1";
                    bp_Read := types.Value true;
                    bp_Write := types.Value false;
                    bp_Owner := types.Null |}),
     httptest.NewServer [httptest.ok_b1]).
Proof.
  exact (@Update_without_change_is_local httptest.scripted
           httptest.testClient
           {| bp_ID := types.Value "b1/k1";
              bp_BucketID := types.Value "b1";
              bp_AccessKeyID := types.Value "k1";
              bp_Read := types.Value true;
              bp_Write := types.Value false;
              bp_Owner := types.Null |}
           (httptest.permission true false false)
           (httptest.NewServer [httptest.ok_b1]) eq_refl).
Defined.

End FurtherWitnesses.

(* ================================================================== *)
(** * Creation of a key, flags after a grant or revoke, quotas *)

Section KeyCreateRequest.

Import client provider.

Context {W : World}.


End KeyCreateRequest.

Section KeyCreateWitnesses.

Import client provider.



End KeyCreateWitnesses.

Section FlagsAfterCalls.

Import client provider.

Context {W : World}.

Lemma Update_states_from (data : BucketPermissionResourceModel)
    (bucket : Bucket) :
  spec.flags_from_key_list bucket (updateStateFromBucket data bucket)
  /\ bp_BucketID (updateStateFromBucket data bucket) = bp_BucketID data
  /\ bp_AccessKeyID (updateStateFromBucket data bucket) = bp_AccessKeyID data.
Proof.
  destruct (updateStateFromBucket_spec data bucket) as (Hf & _ & Hb & Hk).
  split; [exact Hf | split; [exact Hb | exact Hk]].
Qed.

(** C5, as amended.  When the grant call of [Create] succeeds, and when
    every call of an [Update] succeeds (the grant alone, the revoke alone,
    or the grant followed by the revoke), the state that is set carries the
    flags of the row for its access key in the key list of the bucket that
    the last of these calls itself returned: the first such row, and all
    three flags false when there is none, without a diagnostic.  No further
    request is made to fetch that list: the log holds the grant and revoke
    calls only. *)
Theorem flags_follow_returned_key_list (c : Client) (n : Net) :
  (forall data bucket n',
     AllowBucketKey c
       {| BucketID := types.ValueString (bp_BucketID data);
          AccessKeyID := types.ValueString (bp_AccessKeyID data);
          Permissions_ := spec.flags data |} n
     = (Ok bucket, n') ->
     exists st,
       BucketPermissionResource_Create c data n
       = (mkResponse [] (StateSet st), n')
       /\ spec.flags_from_key_list bucket st
       /\ bp_BucketID st = bp_BucketID data
       /\ bp_AccessKeyID st = bp_AccessKeyID data
       /\ log n'
          = (log n
             ++ [wire (AllowBucketKeyC
                         {| BucketID := types.ValueString (bp_BucketID data);
                            AccessKeyID :=
                              types.ValueString (bp_AccessKeyID data);
                            Permissions_ := spec.flags data |})])%list)
  /\ (forall data state bucket n',
        spec.any (spec.flags_turning_on (spec.flags state) (spec.flags data))
        = true ->
        spec.any (spec.flags_turning_off (spec.flags state) (spec.flags data))
        = false ->
        AllowBucketKey c (Update_allowReq data state) n = (Ok bucket, n') ->
        exists st,
          BucketPermissionResource_Update c data state n
          = (mkResponse [] (StateSet st), n')
          /\ spec.flags_from_key_list bucket st
          /\ bp_BucketID st = bp_BucketID data
          /\ bp_AccessKeyID st = bp_AccessKeyID data
          /\ log n' = (log n ++ [wire (spec.grant_call data state)])%list)
  /\ (forall data state bucket n',
        spec.any (spec.flags_turning_on (spec.flags state) (spec.flags data))
        = false ->
        spec.any (spec.flags_turning_off (spec.flags state) (spec.flags data))
        = true ->
        DenyBucketKey c (Update_denyReq data state) n = (Ok bucket, n') ->
        exists st,
          BucketPermissionResource_Update c data state n
          = (mkResponse [] (StateSet st), n')
          /\ spec.flags_from_key_list bucket st
          /\ bp_BucketID st = bp_BucketID data
          /\ bp_AccessKeyID st = bp_AccessKeyID data
          /\ log n' = (log n ++ [wire (spec.revoke_call data state)])%list)
  /\ (forall data state granted n1 bucket n',
        spec.any (spec.flags_turning_on (spec.flags state) (spec.flags data))
        = true ->
        spec.any (spec.flags_turning_off (spec.flags state) (spec.flags data))
        = true ->
        AllowBucketKey c (Update_allowReq data state) n = (Ok granted, n1) ->
        DenyBucketKey c (Update_denyReq data state) n1 = (Ok bucket, n') ->
        exists st,
          BucketPermissionResource_Update c data state n
          = (mkResponse [] (StateSet st), n')
          /\ spec.flags_from_key_list bucket st
          /\ bp_BucketID st = bp_BucketID data
          /\ bp_AccessKeyID st = bp_AccessKeyID data
          /\ log n'
             = (log n ++ [wire (spec.grant_call data state);
                          wire (spec.revoke_call data state)])%list).
Proof.
  split; [|split; [|split]].
  - intros data bucket n' HA.
    pose proof (AllowBucketKey_log c
                  {| BucketID := types.ValueString (bp_BucketID data);
                     AccessKeyID := types.ValueString (bp_AccessKeyID data);
                     Permissions_ := spec.flags data |} n) as HL.
    rewrite HA in HL. cbn [snd] in HL.
    unfold BucketPermissionResource_Create.
    unfold spec.flags in HA. rewrite (bind_eq _ _ _ _ _ HA). unfold ret.
    eexists. split; [reflexivity|].
    match goal with
    | |- context [updateStateFromBucket ?d ?b] =>
        destruct (Update_states_from d b) as (Hf & Hb & Hk)
    end.
    split; [exact Hf|]. split; [exact Hb|]. split; [exact Hk | exact HL].
  - intros data state bucket n' Hon Hoff HA.
    pose proof (AllowBucketKey_log c (Update_allowReq data state) n) as HL.
    rewrite HA in HL. cbn [snd] in HL. rewrite Update_allowReq_spec in HL.
    exists (updateStateFromBucket data bucket).
    destruct (Update_states_from data bucket) as (Hf & Hb & Hk).
    split; [|split; [exact Hf|split; [exact Hb|split; [exact Hk|exact HL]]]].
    unfold BucketPermissionResource_Update. cbv zeta.
    rewrite Update_grant_condition, Hon, Update_revoke_condition, Hoff.
    unfold bind at 1. unfold bind at 1. rewrite HA. reflexivity.
  - intros data state bucket n' Hon Hoff HD.
    pose proof (DenyBucketKey_log c (Update_denyReq data state) n) as HL.
    rewrite HD in HL. cbn [snd] in HL. rewrite Update_denyReq_spec in HL.
    exists (updateStateFromBucket data bucket).
    destruct (Update_states_from data bucket) as (Hf & Hb & Hk).
    split; [|split; [exact Hf|split; [exact Hb|split; [exact Hk|exact HL]]]].
    unfold BucketPermissionResource_Update. cbv zeta.
    rewrite Update_grant_condition, Hon, Update_revoke_condition, Hoff.
    unfold bind at 1. unfold ret at 1.
    unfold bind at 1. unfold bind at 1. rewrite HD. reflexivity.
  - intros data state granted n1 bucket n' Hon Hoff HA HD.
    pose proof (AllowBucketKey_log c (Update_allowReq data state) n) as HL.
    rewrite HA in HL. cbn [snd] in HL. rewrite Update_allowReq_spec in HL.
    pose proof (DenyBucketKey_log c (Update_denyReq data state) n1) as HL2.
    rewrite HD in HL2. cbn [snd] in HL2. rewrite Update_denyReq_spec in HL2.
    exists (updateStateFromBucket data bucket).
    destruct (Update_states_from data bucket) as (Hf & Hb & Hk).
    split; [|split; [exact Hf|split; [exact Hb|split; [exact Hk|]]]].
    + unfold BucketPermissionResource_Update. cbv zeta.
      rewrite Update_grant_condition, Hon, Update_revoke_condition, Hoff.
      unfold bind at 1. unfold bind at 1. rewrite HA. unfold ret at 1.
      unfold bind at 1. unfold bind at 1. rewrite HD. reflexivity.
    + rewrite HL2, HL, <- app_assoc. reflexivity.
Qed.

End FlagsAfterCalls.

Section FlagsAfterCallsWitnesses.

Import client provider.

(** [Create] of (read, write) answered with bucket [b1], whose second row is
    the one of key [k1]; and an [Update] from (read) to (write) whose grant
    is answered with [b1] and whose revoke is answered with [b2], which has
    no row for [k1]. *)
Lemma flags_follow_returned_key_list_witness :
  (exists st n',
     @BucketPermissionResource_Create httptest.scripted httptest.testClient
       (httptest.permission true true false)
       (httptest.NewServer [httptest.ok_b1])
     = (mkResponse [] (StateSet st), n')
     /\ spec.flags_from_key_list httptest.bucket_b1 st)
  /\ (exists st n',
        @BucketPermissionResource_Update httptest.scripted httptest.testClient
          (httptest.permission false true false)
          (httptest.permission true false false)
          (httptest.NewServer [httptest.ok_b1; httptest.ok_b2])
        = (mkResponse [] (StateSet st), n')
        /\ spec.flags_from_key_list httptest.bucket_b2 st
        /\ log n'
           = [wire (spec.grant_call (httptest.permission false true false)
                      (httptest.permission true false false));
              wire (spec.revoke_call (httptest.permission false true false)
                      (httptest.permission true false false))]).
Proof.
  split.
  - destruct (@flags_follow_returned_key_list httptest.scripted
                httptest.testClient (httptest.NewServer [httptest.ok_b1]))
      as [HC _].
    destruct (HC (httptest.permission true true false) httptest.bucket_b1
                (@mkNet httptest.scripted []
                   [wire (AllowBucketKeyC
                            (mkBucketKeyPermRequest "b1" "k1"
                               (mkPermissions true true false)))])
                eq_refl)
      as (st & E & Hf & _).
    exists st. eexists. split; [exact E | exact Hf].
  - destruct (@flags_follow_returned_key_list httptest.scripted
                httptest.testClient
                (httptest.NewServer [httptest.ok_b1; httptest.ok_b2]))
      as (_ & _ & _ & HU).
    destruct (HU (httptest.permission false true false)
                (httptest.permission true false false)
                httptest.bucket_b1
                (@mkNet httptest.scripted [httptest.ok_b2]
                   [wire (spec.grant_call
                            (httptest.permission false true false)
                            (httptest.permission true false false))])
                httptest.bucket_b2
                (@mkNet httptest.scripted []
                   [wire (spec.grant_call
                            (httptest.permission false true false)
                            (httptest.permission true false false));
                    wire (spec.revoke_call
                            (httptest.permission false true false)
                            (httptest.permission true false false))])
                eq_refl eq_refl eq_refl eq_refl)
      as (st & E & Hf & _ & _ & Hlog).
    exists st. eexists. split; [exact E|]. split; [exact Hf | exact Hlog].
Defined.

(** C5 as stated fails twice.  The grant call of this [Update] succeeds
    (it returns bucket [b1]) and the revoke that follows is answered with
    status 500: no flag is derived, the state is left alone and an error is
    raised.  And the [Create] next to it, whose grant succeeds, sends the
    grant and nothing else: the key list is not fetched again. *)
Lemma successful_grant_without_rederivation :
  fst (@AllowBucketKey httptest.scripted httptest.testClient
         (Update_allowReq (httptest.permission false true false)
            (httptest.permission true false false))
         (httptest.NewServer [httptest.ok_b1; httptest.internal_error]))
  = Ok httptest.bucket_b1
  /\ State (fst (@BucketPermissionResource_Update httptest.scripted
                   httptest.testClient
                   (httptest.permission false true false)
                   (httptest.permission true false false)
                   (httptest.NewServer
                      [httptest.ok_b1; httptest.internal_error])))
     = Untouched
  /\ HasError (fst (@BucketPermissionResource_Update httptest.scripted
                      httptest.testClient
                      (httptest.permission false true false)
                      (httptest.permission true false false)
                      (httptest.NewServer
                         [httptest.ok_b1; httptest.internal_error])))
     = true
  /\ log (snd (@BucketPermissionResource_Create httptest.scripted
                 httptest.testClient (httptest.permission true true false)
                 (httptest.NewServer [httptest.ok_b1; httptest.ok_b1])))
     = [wire (AllowBucketKeyC
                (mkBucketKeyPermRequest "b1" "k1"
                   (mkPermissions true true false)))].
Proof. repeat split. Qed.

End FlagsAfterCallsWitnesses.

Section QuotaRoundTrip.

Import client provider.

Context {W : World}.

(** C7.  A plan with [max_size = v], a [CreateBucket] that returns a bucket
    and the [UpdateBucket] for that bucket's id that succeeds: [Create]
    sends these two requests and no other, the second one carrying [v] in
    its quotas, and stores the plan with the server's id, so [max_size] is
    [v].  If the server then answers the lookup of that id with the quotas
    of the update it received last, [Read] sets [max_size] to [v] again.
    A plan with neither quota sends quotas in no request, and a [Read] that
    finds a bucket with neither quota field set (quotas absent, or present
    with both fields absent) sets [max_size] and [max_objects] to null, not
    to zero. *)
Theorem quota_round_trip (c : Client) :
  (forall data n n1 n2 n3 bucket updated fetched v,
     b_MaxSize data = types.Value v ->
     CreateBucket c
       {| cb_GlobalAlias := Some (types.ValueString (b_GlobalAlias data));
          cb_LocalAlias := None |} n
     = (Ok bucket, n1) ->
     UpdateBucket c (ID bucket) (Create_updateReq data) n1
     = (Ok updated, n2) ->
     GetBucketInfo c {| gb_ID := Some (ID bucket); gb_GlobalAlias := None |} n2
     = (Ok (Some fetched), n3) ->
     (forall earlier req,
        log n2 = (earlier ++ [wire (UpdateBucketC (ID bucket) req)])%list ->
        spec.quota_fields (Quotas fetched)
        = spec.quota_fields (ub_Quotas req)) ->
     exists st st' req quotas,
       BucketResource_Create c data n = (mkResponse [] (StateSet st), n2)
       /\ log n2
          = (log n
             ++ [wire (CreateBucketC
                         {| cb_GlobalAlias :=
                              Some (types.ValueString (b_GlobalAlias data));
                            cb_LocalAlias := None |});
                 wire (UpdateBucketC (ID bucket) req)])%list
       /\ ub_Quotas req = Some quotas
       /\ MaxSize quotas = Some v
       /\ b_ID st = types.Value (ID bucket)
       /\ b_MaxSize st = types.Value v
       /\ BucketResource_Read c st n2 = (mkResponse [] (StateSet st'), n3)
       /\ b_MaxSize st' = types.Value v)
  /\ (forall data n,
        b_MaxSize data = types.Null ->
        b_MaxObjects data = types.Null ->
        exists calls,
          log (snd (BucketResource_Create c data n)) = (log n ++ calls)%list
          /\ forall id req,
               In (wire (UpdateBucketC id req)) calls ->
               ub_Quotas req = None)
  /\ (forall st n n2 bucket,
        GetBucketInfo c
          {| gb_ID := Some (types.ValueString (b_ID st));
             gb_GlobalAlias := None |} n
        = (Ok (Some bucket), n2) ->
        spec.quota_fields (Quotas bucket) = (None, None) ->
        exists st',
          BucketResource_Read c st n = (mkResponse [] (StateSet st'), n2)
          /\ b_MaxSize st' = types.Null
          /\ b_MaxObjects st' = types.Null
          /\ b_MaxSize st' <> types.Value 0%Z
          /\ b_MaxObjects st' <> types.Value 0%Z).
Proof.
  split; [|split].
  - intros data n n1 n2 n3 bucket updated fetched v Hv HC HU HG Hecho.
    pose proof (CreateBucket_log c
                  {| cb_GlobalAlias :=
                       Some (types.ValueString (b_GlobalAlias data));
                     cb_LocalAlias := None |} n) as HL1.
    rewrite HC in HL1. cbn [snd] in HL1.
    pose proof (UpdateBucket_log c (ID bucket) (Create_updateReq data) n1)
      as HL2.
    rewrite HU in HL2. cbn [snd] in HL2.
    assert (Hlog : log n2
                   = (log n
                      ++ [wire (CreateBucketC
                                  {| cb_GlobalAlias :=
                                       Some (types.ValueString
                                               (b_GlobalAlias data));
                                     cb_LocalAlias := None |});
                          wire (UpdateBucketC (ID bucket)
                                  (Create_updateReq data))])%list).
    { rewrite HL2, HL1, <- app_assoc. reflexivity. }
    assert (Hq : ub_Quotas (Create_updateReq data)
                 = Some {| MaxSize := Some v;
                           MaxObjects :=
                             if negb (types.IsNull (b_MaxObjects data))
                             then Some (types.ValueInt64 (b_MaxObjects data))
                             else None |}).
    { unfold Create_updateReq. cbn [ub_Quotas]. now rewrite Hv. }
    assert (Hneed : Create_needsUpdate data = true).
    { unfold Create_needsUpdate. rewrite Hv. cbn. apply orb_true_r. }
    eexists. exists (Read_state
                       {| b_ID := types.Value (ID bucket);
                          b_GlobalAlias := b_GlobalAlias data;
                          b_WebsiteEnabled := b_WebsiteEnabled data;
                          b_WebsiteIndex := b_WebsiteIndex data;
                          b_WebsiteError := b_WebsiteError data;
                          b_MaxSize := b_MaxSize data;
                          b_MaxObjects := b_MaxObjects data |} fetched).
    exists (Create_updateReq data). eexists.
    split.
    { unfold BucketResource_Create. rewrite (bind_eq _ _ _ _ _ HC), Hneed.
      rewrite (bind_eq _ _ _ _ _ HU). reflexivity. }
    split; [exact Hlog|]. split; [exact Hq|]. split; [reflexivity|].
    split; [reflexivity|]. split; [exact Hv|]. split.
    { now apply BucketResource_Read_found. }
    assert (He := Hecho _ (Create_updateReq data) HL2).
    rewrite Hq in He. unfold Read_state. cbn [b_MaxSize].
    destruct (Quotas fetched) as [q|]; cbn in He; [|discriminate].
    injection He as -> _. reflexivity.
  - intros data n Hs Ho.
    assert (Hq : ub_Quotas (Create_updateReq data) = None).
    { unfold Create_updateReq. cbn [ub_Quotas]. now rewrite Hs, Ho. }
    unfold BucketResource_Create, bind, ret.
    pose proof (CreateBucket_log c
                  {| cb_GlobalAlias :=
                       Some (types.ValueString (b_GlobalAlias data));
                     cb_LocalAlias := None |} n) as HL1.
    destruct (CreateBucket c _ n) as [[b | e] n1]; cbn [fst snd] in *.
    + destruct (Create_needsUpdate data).
      * pose proof (UpdateBucket_log c (ID b) (Create_updateReq data) n1)
          as HL2.
        destruct (UpdateBucket c (ID b) (Create_updateReq data) n1)
          as [[b' | e] n2]; cbn [fst snd] in *;
          (eexists; split;
           [rewrite HL2, HL1, <- app_assoc; reflexivity|];
           intros id req [E | [E | []]]; [discriminate|];
           injection E as _ <-; exact Hq).
      * eexists. split; [exact HL1|].
        intros id req [E | []]. discriminate.
    + eexists. split; [exact HL1|].
      intros id req [E | []]. discriminate.
  - intros st n n2 bucket HG Hnone.
    exists (Read_state st bucket).
    split; [now apply BucketResource_Read_found|].
    unfold Read_state. cbn [b_MaxSize b_MaxObjects].
    destruct (Quotas bucket) as [q|]; cbn in Hnone.
    + injection Hnone as -> ->. repeat split; discriminate.
    + repeat split; discriminate.
Qed.

End QuotaRoundTrip.

Section QuotaRoundTripWitnesses.

Import client provider.

(** The plan with [max_size = 1073741824] against a server that answers
    [CreateBucket], [UpdateBucket] and the lookup with bucket [b1], which
    carries that quota: [Read] runs on the state [Create] stored.  And a
    refresh answered with bucket [b2], which has no quotas. *)
Lemma quota_round_trip_witness :
  (exists st st' n2 n3,
     @BucketResource_Create httptest.scripted httptest.testClient
       (httptest.bucket_plan (types.Value 1073741824%Z))
       (httptest.NewServer [httptest.ok_b1; httptest.ok_b1; httptest.ok_b1])
     = (mkResponse [] (StateSet st), n2)
     /\ @BucketResource_Read httptest.scripted httptest.testClient st n2
        = (mkResponse [] (StateSet st'), n3)
     /\ b_MaxSize st' = types.Value 1073741824%Z)
  /\ (exists st' n2,
        @BucketResource_Read httptest.scripted httptest.testClient
          {| b_ID := types.Value "b2";
             b_GlobalAlias := types.Value "plain-bucket";
             b_WebsiteEnabled := types.Value false;
             b_WebsiteIndex := types.Null;
             b_WebsiteError := types.Null;
             b_MaxSize := types.Null;
             b_MaxObjects := types.Null |}
          (httptest.NewServer [httptest.ok_b2])
        = (mkResponse [] (StateSet st'), n2)
        /\ b_MaxSize st' = types.Null
        /\ b_MaxObjects st' = types.Null).
Proof.
  destruct (@quota_round_trip httptest.scripted httptest.testClient)
    as (HA & _ & HB).
  split.
  - destruct (HA (httptest.bucket_plan (types.Value 1073741824%Z))
                (httptest.NewServer
                   [httptest.ok_b1; httptest.ok_b1; httptest.ok_b1])
                (@mkNet httptest.scripted [httptest.ok_b1; httptest.ok_b1]
                   [wire (CreateBucketC
                            {| cb_GlobalAlias := Some "my-bucket";
                               cb_LocalAlias := None |})])
                (@mkNet httptest.scripted [httptest.ok_b1]
                   [wire (CreateBucketC
                            {| cb_GlobalAlias := Some "my-bucket";
                               cb_LocalAlias := None |});
                    wire (UpdateBucketC "b1"
                            (Create_updateReq
                               (httptest.bucket_plan
                                  (types.Value 1073741824%Z))))])
                (@mkNet httptest.scripted []
                   [wire (CreateBucketC
                            {| cb_GlobalAlias := Some "my-bucket";
                               cb_LocalAlias := None |});
                    wire (UpdateBucketC "b1"
                            (Create_updateReq
                               (httptest.bucket_plan
                                  (types.Value 1073741824%Z))));
                    mkSent "GET" "/v2/GetBucketInfo?id=b1" None])
                httptest.bucket_b1 httptest.bucket_b1 httptest.bucket_b1
                1073741824%Z eq_refl eq_refl eq_refl eq_refl)
      as (st & st' & _ & _ & EC & _ & _ & _ & _ & _ & ER & Hv).
    + intros earlier req E. cbn [log] in E.
      change [wire (CreateBucketC
                      {| cb_GlobalAlias := Some "my-bucket";
                         cb_LocalAlias := None |});
              wire (UpdateBucketC "b1"
                      (Create_updateReq
                         (httptest.bucket_plan (types.Value 1073741824%Z))))]
        with ([wire (CreateBucketC
                       {| cb_GlobalAlias := Some "my-bucket";
                          cb_LocalAlias := None |})]
              ++ [wire (UpdateBucketC "b1"
                          (Create_updateReq
                             (httptest.bucket_plan
                                (types.Value 1073741824%Z))))])%list in E.
      apply app_inj_tail in E as [_ E]. cbn in E.
      injection E as <-. reflexivity.
    + exists st, st'. do 2 eexists.
      split; [exact EC|]. split; [exact ER | exact Hv].
  - destruct (HB {| b_ID := types.Value "b2";
                   b_GlobalAlias := types.Value "plain-bucket";
                   b_WebsiteEnabled := types.Value false;
                   b_WebsiteIndex := types.Null;
                   b_WebsiteError := types.Null;
                   b_MaxSize := types.Null;
                   b_MaxObjects := types.Null |}
                (httptest.NewServer [httptest.ok_b2])
                (@mkNet httptest.scripted []
                   [mkSent "GET" "/v2/GetBucketInfo?id=b2" None])
                httptest.bucket_b2 eq_refl eq_refl)
      as (st' & ER & Hs & Ho & _).
    exists st'. eexists. split; [exact ER|]. split; [exact Hs | exact Ho].
Defined.

End QuotaRoundTripWitnesses.
